(* ===== verification/_CoqProject ===== *)
-Q . S2P
Prelude.v
PyNum.v
PyValue.v
Token.v
Compare.v
Lexer.v
Parser.v
Tables.v
Eval.v
Reader.v
Session.v
Repl.v
TokenOps.v
TokenPy.v
