(* ===== verification/Prelude.v ===== *)
(** * A verification development for [scheme_repl] (src/scheme.py, src/token.py)

    The program is a small Lisp interpreter written in Python.  Text is
    split into tokens by a regular expression ([tokenize]), each run is
    classified by [determine] into a [Tok] of kind integer, float or symbol,
    [parse] turns the token list into nested Python lists using an explicit
    stack, and [evaluate] reduces the tree while reading and writing four
    process-wide dictionaries (a local [scope], [symbol_table],
    [function_table], [constant_table]) and dispatching the special forms of
    [macro_table] ([define], [let], [if]).  [eval_expr] chains
    tokenize, a parenthesis count, parse and evaluate; [repl] reads lines and
    prints results.  Data flows one way: text -> tokens -> tree -> value, and
    the only shared mutable state is [symbol_table] (written by [define] and
    [let]) plus what is printed.

    ** Files, in dependency order
    - [Prelude] (this file): Python's exceptions as a value type [exn]; the
      interpreter monad [PyM] (state passing where the state is KEPT when an
      exception is raised, as Python keeps every dictionary write made before
      a raise); its notation in [py_scope]; Python dictionaries as
      insertion-ordered association lists compared with the key type's
      [__eq__] ([dict_get], [dict_set]); tactics and the [py] hint base.
    - [PyNum]: the host's float library as an interface (the class
      [PyFloat]: float parsing, int/float conversion, IEEE arithmetic,
      equality), with its laws; and one instance, exact rationals, used
      by the examples and the witnesses.  Every theorem is proved for
      EVERY instance, so nothing depends on a particular rounding.
    - [PyValue]: Python values that a token can carry (int, float, str) and
      Python's [==], [int()], [float()], [str()], [+ - * /] on them,
      including str concatenation and repetition and the TypeError,
      ZeroDivisionError, ValueError, OverflowError paths.
    - [Token]: class [Tok] (scheme.py 13-34) with its [__eq__],
      [determine] and [tokv] (scheme.py 57-91), and the classification
      [determine_spec] that [determine] meets.
    - [Compare]: the comparison builtins [std_greq], [std_sreq], [std_gr],
      [std_sr] (scheme.py 309-314) with Python's ordering on numbers and
      strs; they are in no table of the evaluator.
    - [Lexer]: the regular expression of [tokenize] (scheme.py 118-124) as a
      scanner that follows Python's [re] leftmost-first, greedy,
      backtracking semantics on this pattern: a fuelled function
      ([findall], fuel the input length) and a fuel-free big-step relation
      ([scan_all]) it computes.
    - [Parser]: [parse] (scheme.py 127-153) over the token stream with its
      stack, and the parenthesis count of [eval_expr] (scheme.py 243-247).
    - [Tables]: the four dictionaries (scheme.py 100-116) and the
      interpreter state: [symbol_table] and the printed error messages.
    - [Eval]: [evaluate] (scheme.py 156-223), the builtins, [std_let],
      [std_if_then_else], [fun_define] (scheme.py 283-351) and [eval_expr]
      (scheme.py 236-253); the size measure for induction over the
      evaluator; the invariant [grows]; the behaviour of each form.
    - [Reader]: trees of words ([sexp]) and their printed text, to state
      that the front end of [eval_expr] reads printed text back.
    - [Session]: [Tok.__str__] / [Tok.__repr__] (scheme.py 36-54), the loop
      [repl] (scheme.py 226-233), [run_tests] and [test] (scheme.py
      258-456) and the entry point that runs [test()] then [repl()] in one
      interpreter state (scheme.py 458-460); then everything these write
      to stdout: the banner ([NAME], [VERSION]), the prompt of each
      [input()], the text of each error message ([msg_text]), the result
      lines ([repl_io], [repl]), the numbered lines, headings and summary
      of the tests ([run_tests_io], [test_io]) and the whole script
      ([main_io]), in the writer-and-state type [IO].
    - [Repl]: the same loop as a step relation ([repl_step]) over running
      and halted configurations, for rule induction over its runs.
    - [TokenOps]: [Tok.__hash__] (scheme.py 30-31) with CPython's int
      hash and tuple hash written at 64 bits ([int_hash], [tuple_hash])
      and the str and float hashes as the class [PyHash] with Python's
      laws; the arithmetic methods of [Tok] (scheme.py 18-28); [tokt],
      [istok], [construct_lambda] and [call_lambda].
    - [TokenPy]: src/token.py, a copy of scheme.py 8-96, translated on its
      own record type (with [TokenOps]' hashes).

    ** What the theorems show (see each file)
    - Lexer: the scan reaches the end of its input -- [findall] is the one
      result of the fuel-free relation [scan_all] ([findall_terminates]);
      it loses exactly the whitespace ([concat] of the runs is the input
      without whitespace); every run is a parenthesis or parenthesis-free.
    - Token: [determine] classifies a run as INT, FLO or SYM, and a run with
      a dot that is not [digits.digits] yields Python [None].
    - Compare: on ints the comparison builtins decide the integer order.
    - Parser: [parse] inverts the printer [unparse] (round trip); on a well
      nested token stream it succeeds and its leaves are the input's
      non-parenthesis tokens in order (the spec's round-trip property); an
      unmatched [")"] raises IndexError, which the count of [eval_expr]
      does not prevent; the count is the number of ["("] minus the number
      of [")"].
    - Reader: the text of a tree of numerals and symbols is read back by
      [tokenize] and [parse] as its tree of tokens, and [eval_expr] on it
      evaluates that tree ([read_printed]).
    - Eval: evaluating a line never removes a binding or a printed message
      ([eval_expr_grows], by induction on the size of the tree over all
      forms); numbers are self-evaluating; lookup precedence scope > symbol
      table > function table > constant table > the symbol itself, and the
      constant table is unreachable; builtins produce a float-kind token and
      fold left to right; [let] writes its bindings into the global table
      sequentially and they survive the form; [if] returns the chosen
      branch unevaluated; [quote] returns the whole form; [define] stores
      its body unevaluated; unknown heads print and return [None];
      unbalanced input is rejected before parsing; a line holding a word
      [determine] maps to [None] raises AttributeError; [if] and [define]
      with the wrong number of arguments return [None].
    - Session: up to [".q"] the REPL is [eval_expr] mapped over the lines;
      an exception ends the session.
      The stdout transcript refines [repl_loop]: without error messages it
      is the banner, then a prompt before each result line, then the last
      prompt ([repl_stdout]); [run_tests_io] and [test_io] compute the
      same state and results as [run_tests] and [test_suite].  Examples
      fix the exact text, checked against the script's output: the whole
      output of [test()], sessions with error messages, and the bindings
      [test()] leaves for the REPL ([a] is [29], [(+ a b c)] is [119.0]).
    - TokenOps: [Tok.__hash__] agrees with [Tok.__eq__] and returns a
      valid 64-bit hash other than [-1] ([tok_hash_eq]); this is what makes
      a Python dict keyed by [Tok] behave as the association list of
      [Prelude] under [tok_eqb].  An example checks [tuple_hash] against
      CPython's [hash((1, 2))].
    - Repl: along every run of the step relation the bindings of the
      initial state are kept and at most one line is printed per line read
      (invariant by rule induction over [star]).

    ** Bounds, fuel and modelling choices
    - [evaluate] is structurally recursive (nested fixpoints over the
      expression tree), so it needs no fuel: it is total by construction.
      The lexer's scanner takes fuel [length s]; every step consumes a
      character, so that is enough, which [findall_terminates] states as
      agreement with the fuel-free relation [scan_all].
    - Python ints are [Z] (unbounded, like Python's); floats are the
      abstract [F] of [PyFloat]; strings are [string] over ascii: input is
      assumed to be ASCII ([str.isnumeric] and [\s] are modelled on their
      ASCII members).
    - Dictionary membership is decided by key equality ([__eq__]); for
      [Tok] keys this is justified by [tok_hash_eq]; the hash comparison
      that precedes it is assumed collision-free between a [Tok] and a
      [str] key (which is why [constant_table] never hits).
    - Hashes are [Z] at the width of [Py_hash_t]: words are reduced modulo
      [2^64] after each CPython operation ([u64]) and read back signed
      ([to_hash_t]).  The hash of a str is salted per process and the
      hash of a non-integral float is left to the instance, so both are
      parameters of [PyHash]; the witnesses use one lawful instance.
    - Expression lists built by [parse] are never mutated after parsing, so
      value semantics is faithful for them; the default argument
      [scope={}] is never written by the program and is modelled as [[]].
    - Printed error messages are recorded as tags in the state ([msg]),
      rendered to their exact text by [msg_text] when the stdout
      transcript is built.  [str] of a Python function shows an address
      the program does not determine, left out.
    - Concrete runs (the examples and witnesses) use the exact rational
      instance of [PyFloat] and are closed by [vm_eq], a [vm_compute] cast
      checked by the kernel.  That instance's [str] prints a float as
      Python does when its value has a short terminating decimal
      expansion; other values are truncated to 16 decimals.

    ** Not modelled
    - [pp] (scheme.py 97-98), a bare [print], and the [import] lines.
    - The value of a [FUN] token as a callable: [pyval] has no function
      values, because no path builds one ([fun_define] raises TypeError
      before [construct_lambda] runs), so [call_lambda] on a FUN token
      raises TypeError as calling an int, float or str would.
    - CPython's str hash (SipHash with a per-process key) and float hash:
      abstract, with their laws, in [PyHash]. *)

From Stdlib Require Import String Ascii ZArith List Lia.
From stdpp Require Import base decidable tactics.
Import ListNotations.

(** ** Python exceptions raised by the program *)

Inductive exn :=
  | TypeError
  | AttributeError
  | IndexError
  | ZeroDivisionError
  | ValueError
  | OverflowError
  | EOFError.

#[export] Instance exn_eq_dec : EqDecision exn.
Proof. solve_decision. Defined.

(** A computation either returns a value or raises. *)
Inductive outcome (A : Type) :=
  | Ret (a : A)
  | Raise (e : exn).
Arguments Ret {A} a.
Arguments Raise {A} e.

Definition obind {A B} (m : outcome A) (k : A -> outcome B) : outcome B :=
  match m with Ret a => k a | Raise e => Raise e end.

(** [list(map(f, xs))]: left to right, the first exception propagates. *)
Fixpoint omap {A B} (f : A -> outcome B) (xs : list A) : outcome (list B) :=
  match xs with
  | [] => Ret []
  | x :: r => obind (f x) (fun y => obind (omap f r) (fun ys => Ret (y :: ys)))
  end.

(** ** The interpreter monad: state passing that keeps the state on raise *)

Definition PyM (S A : Type) := S -> S * outcome A.

Definition pret {S A} (a : A) : PyM S A := fun s => (s, Ret a).
Definition praise {S A} (e : exn) : PyM S A := fun s => (s, Raise e).
Definition plift {S A} (m : outcome A) : PyM S A := fun s => (s, m).
Definition pget {S} : PyM S S := fun s => (s, Ret s).
Definition pmodify {S} (f : S -> S) : PyM S unit := fun s => (f s, Ret tt).
Definition pbind {S A B} (m : PyM S A) (k : A -> PyM S B) : PyM S B :=
  fun s => match m s with
           | (s', Ret a) => k a s'
           | (s', Raise e) => (s', Raise e)
           end.

Declare Scope py_scope.
Delimit Scope py_scope with py.
Notation "x <- m ;; k" := (pbind m (fun x => k))
  (at level 100, m at next level, right associativity) : py_scope.
Notation "m ;; k" := (pbind m (fun _ => k))
  (at level 100, right associativity) : py_scope.
Open Scope py_scope.

(** [list(map(f, xs))] inside the monad. *)
Fixpoint mapM {S A B} (f : A -> PyM S B) (xs : list A) : PyM S (list B) :=
  match xs with
  | [] => pret []
  | x :: r => y <- f x ;; ys <- mapM f r ;; pret (y :: ys)
  end.

Section MonadLaws.
Context {S A B : Type}.

Lemma pbind_ret (s : S) (m : PyM S A) (k : A -> PyM S B) s' a :
  m s = (s', Ret a) -> pbind m k s = k a s'.
Proof. intros H. unfold pbind. by rewrite H. Qed.

Lemma pbind_raise (s : S) (m : PyM S A) (k : A -> PyM S B) s' e :
  m s = (s', Raise e) -> pbind m k s = (s', Raise e).
Proof. intros H. unfold pbind. by rewrite H. Qed.

Lemma pbind_pret (a : A) (k : A -> PyM S B) s : pbind (pret a) k s = k a s.
Proof. reflexivity. Qed.

Lemma pbind_assoc {C} (m : PyM S A) (k : A -> PyM S B) (h : B -> PyM S C) s :
  pbind (pbind m k) h s = pbind m (fun a => pbind (k a) h) s.
Proof. unfold pbind. destruct (m s) as [s' [a|e]]; reflexivity. Qed.
End MonadLaws.

(** [mapM] over a list on which [f] never raises nor changes the state. *)
Lemma mapM_pure {S A B} (f : A -> PyM S B) (g : A -> B) (xs : list A) s :
  (forall x, In x xs -> f x s = (s, Ret (g x))) ->
  mapM f xs s = (s, Ret (map g xs)).
Proof.
  induction xs as [|x r IH]; intros Hf; [reflexivity|]. simpl.
  unfold pbind at 1. rewrite (Hf x (or_introl eq_refl)).
  unfold pbind. rewrite IH; [reflexivity|]. intros y Hy. apply Hf. by right.
Qed.

Lemma omap_Ret {A B} (f : A -> outcome B) (g : A -> B) (xs : list A) :
  (forall x, In x xs -> f x = Ret (g x)) -> omap f xs = Ret (map g xs).
Proof.
  induction xs as [|x r IH]; intros Hf; [reflexivity|]. simpl.
  rewrite (Hf x (or_introl eq_refl)). simpl. rewrite IH; [reflexivity|].
  intros y Hy. apply Hf. by right.
Qed.

(** ** Computations that only move the state forward along a preorder *)

Section Preserves.
Context {S : Type} (R : S -> S -> Prop) `{!PreOrder R}.

Definition preserves {A} (m : PyM S A) : Prop :=
  forall s s' r, m s = (s', r) -> R s s'.

Lemma preserves_pret {A} (a : A) : preserves (pret a).
Proof. intros s s' r [= <- _]. reflexivity. Qed.

Lemma preserves_praise {A} e : preserves (A:=A) (praise e).
Proof. intros s s' r [= <- _]. reflexivity. Qed.

Lemma preserves_plift {A} (o : outcome A) : preserves (plift o).
Proof. intros s s' r [= <- _]. reflexivity. Qed.

Lemma preserves_pget : preserves pget.
Proof. intros s s' r [= <- _]. reflexivity. Qed.

Lemma preserves_pmodify f : (forall s, R s (f s)) -> preserves (pmodify f).
Proof. intros Hf s s' r [= <- _]. apply Hf. Qed.

Lemma preserves_pbind {A B} (m : PyM S A) (k : A -> PyM S B) :
  preserves m -> (forall a, preserves (k a)) -> preserves (pbind m k).
Proof.
  intros Hm Hk s s' r. unfold pbind. destruct (m s) as [s1 [a|e]] eqn:E.
  - intros H. transitivity s1; [exact (Hm _ _ _ E)|exact (Hk a _ _ _ H)].
  - intros [= <- _]. exact (Hm _ _ _ E).
Qed.

Lemma preserves_mapM {A B} (f : A -> PyM S B) xs :
  (forall x, In x xs -> preserves (f x)) -> preserves (mapM f xs).
Proof.
  induction xs as [|x r IH]; intros Hf; simpl; [apply preserves_pret|].
  apply preserves_pbind; [apply Hf; by left|]. intros y.
  apply preserves_pbind; [apply IH; intros z Hz; apply Hf; by right|].
  intros ys. apply preserves_pret.
Qed.
End Preserves.

(** ** Computations that agree on related states *)

(** [m1] and [m2] run from related states end in related states with the
    same outcome. *)
Section Related.
Context {S : Type} (R : S -> S -> Prop).

Definition related {A} (m1 m2 : PyM S A) : Prop :=
  forall s1 s2, R s1 s2 -> R (m1 s1).1 (m2 s2).1 /\ (m1 s1).2 = (m2 s2).2.

Lemma related_pret {A} (a : A) : related (pret a) (pret a).
Proof. by intros s1 s2 H. Qed.

Lemma related_praise {A} e : related (@praise S A e) (praise e).
Proof. by intros s1 s2 H. Qed.

Lemma related_plift {A} (o : outcome A) : related (plift o) (plift o).
Proof. by intros s1 s2 H. Qed.

Lemma related_pmodify f g : (forall s1 s2, R s1 s2 -> R (f s1) (g s2)) -> related (pmodify f) (pmodify g).
Proof. intros Hf s1 s2 H. split; [by apply Hf|done]. Qed.

Lemma related_pbind {A B} (m1 m2 : PyM S A) (k1 k2 : A -> PyM S B) :
  related m1 m2 -> (forall a, related (k1 a) (k2 a)) -> related (pbind m1 k1) (pbind m2 k2).
Proof.
  intros Hm Hk s1 s2 H. unfold pbind.
  destruct (Hm s1 s2 H) as [HR Ho].
  destruct (m1 s1) as [s1' [a|e]], (m2 s2) as [s2' r2]; simpl in *; subst r2; [|done].
  by apply Hk.
Qed.

Lemma related_mapM {A B} (f1 f2 : A -> PyM S B) xs :
  (forall x, In x xs -> related (f1 x) (f2 x)) -> related (mapM f1 xs) (mapM f2 xs).
Proof.
  induction xs as [|x r IH]; intros Hf; simpl; [apply related_pret|].
  apply related_pbind; [apply Hf; by left|]. intros y.
  apply related_pbind; [apply IH; intros z Hz; apply Hf; by right|].
  intros ys. apply related_pret.
Qed.
End Related.

(** ** Python dictionaries

    A dict is an insertion-ordered list of entries.  Lookup returns the
    value of the entry whose key is [==] to the query; assignment
    [d[k] = v] overwrites that entry in place (keeping the stored key
    object) or appends a new one. *)

Section Dict.
Context {K V : Type} (keqb : K -> K -> bool).

Definition dict := list (K * V).

Fixpoint dict_get (k : K) (d : dict) : option V :=
  match d with
  | [] => None
  | (k', v) :: d' => if keqb k k' then Some v else dict_get k d'
  end.

Fixpoint dict_set (k : K) (v : V) (d : dict) : dict :=
  match d with
  | [] => [(k, v)]
  | (k', v') :: d' => if keqb k k' then (k', v) :: d' else (k', v') :: dict_set k v d'
  end.

(** Key equality is an equivalence on the keys involved. *)
Hypothesis keqb_sym : forall a b, keqb a b = keqb b a.
Hypothesis keqb_trans : forall a b c, keqb a b = true -> keqb b c = true -> keqb a c = true.

Lemma dict_get_set_eq k k' v d :
  keqb k' k = true -> dict_get k' (dict_set k v d) = Some v.
Proof.
  intros Hk. induction d as [|[k1 v1] d IH]; simpl.
  - by rewrite Hk.
  - destruct (keqb k k1) eqn:E; simpl.
    + by rewrite (keqb_trans _ _ _ Hk E).
    + destruct (keqb k' k1) eqn:E'; [|done].
      rewrite keqb_sym in Hk. by rewrite (keqb_trans _ _ _ Hk E') in E.
Qed.

Lemma dict_get_set_ne k k' v d :
  keqb k' k = false -> dict_get k' (dict_set k v d) = dict_get k' d.
Proof.
  intros Hk. induction d as [|[k1 v1] d IH]; simpl.
  - by rewrite Hk.
  - destruct (keqb k k1) eqn:E; simpl.
    + destruct (keqb k' k1) eqn:E'; [|done].
      rewrite keqb_sym in E. by rewrite (keqb_trans _ _ _ E' E) in Hk.
    + by rewrite IH.
Qed.
End Dict.

(** Concatenation of strings is associative. *)
Lemma string_append_assoc (a b c : string) :
  String.append (String.append a b) c = String.append a (String.append b c).
Proof. induction a as [|x a IH]; simpl; congruence. Qed.

(** ** Sequences of transitions of a step relation *)

Section Star.
Context {A : Type} (R : A -> A -> Prop).

(** Zero or more transitions. *)
Inductive star : A -> A -> Prop :=
  | star_refl a : star a a
  | star_step a b c : R a b -> star b c -> star a c.

Lemma star_one a b : R a b -> star a b.
Proof. eauto using star. Qed.

Lemma star_trans a b c : star a b -> star b c -> star a c.
Proof. induction 1; eauto using star. Qed.

(** A property kept by every transition holds of every reachable state. *)
Lemma star_invariant (P : A -> Prop) :
  (forall a b, R a b -> P a -> P b) -> forall a b, star a b -> P a -> P b.
Proof. intros HP a b H. induction H; eauto. Qed.

End Star.

(** ** Automation shared by the component files *)

Create HintDb py.
#[export] Hint Resolve dict_get_set_eq dict_get_set_ne : py.
#[export] Hint Resolve preserves_pret preserves_praise preserves_plift preserves_pget : py.

(** Split a [preserves] goal at a bind, or over a [mapM]. *)
Ltac pbind := apply preserves_pbind; try exact _.
Ltac pmapM := apply preserves_mapM; try exact _.

(** Close [preserves] for a computation that does not touch the state. *)
Ltac pdone :=
  first [ apply preserves_pret | apply preserves_praise | apply preserves_plift
        | apply preserves_pget ]; exact _.

(** Close an equation between closed terms by running both sides in the
    virtual machine ([vm_compute] as a cast, checked by the kernel with the
    same machine), without normalising the type arguments. *)
Ltac vm_eq := match goal with |- ?l = ?r => exact (@eq_refl _ r <: l = r) end.
