(* ===== verification/PyNum.v ===== *)
(** The host's float library as an interface.

    [scheme.py] never implements arithmetic itself: [float(s)], [int(x)],
    [str(x)], the float operators and [==] between ints and floats are the
    Python runtime's.  The class [PyFloat] states what the interpreter uses
    of them; partial conversions return an [outcome] carrying the exception
    Python raises.  The laws are those of Python's [==] on numbers (IEEE
    equality and exact int/float comparison), which the dictionary lemmas
    need.  [QFloat] is an exact-rational instance used to run concrete
    inputs: the examples and the witnesses of theorems with hypotheses use
    it, every theorem is stated for all instances.  Its arithmetic is exact
    where IEEE doubles round, and its [str] agrees with Python's on values
    with a short terminating decimal expansion ([119.0], [0.5]). *)

From Stdlib Require Import String Ascii ZArith QArith List.
From Stdlib Require Import DecimalString.
From stdpp Require Import base tactics.
From S2P Require Import Prelude.

Class PyFloat := {
  F : Type;
  (** [float("D1.D2")]: the float nearest to [m / 10^k]. *)
  f_of_dec : Z -> nat -> F;
  (** [float(n)] for an int; OverflowError beyond the float range. *)
  f_of_Z : Z -> outcome F;
  (** [a / b] on ints with [b <> 0] (true division). *)
  f_truediv_Z : Z -> Z -> outcome F;
  f_add : F -> F -> F;
  f_sub : F -> F -> F;
  f_mul : F -> F -> F;
  f_div : F -> F -> F;
  f_is_zero : F -> bool;
  f_eqb : F -> F -> bool;
  (** [f == n] for a float and an int (exact comparison). *)
  f_eq_Z : F -> Z -> bool;
  (** [int(f)]: truncation; OverflowError or ValueError on inf and nan. *)
  f_trunc : F -> outcome Z;
  (** [float(s)] and [int(s)] on arbitrary text: ValueError when malformed. *)
  f_parse : string -> outcome F;
  i_parse : string -> outcome Z;
  (** [str(f)]. *)
  f_repr : F -> string;
  (** [math.e], [math.pi]. *)
  f_e : F;
  f_pi : F;
  (** The order of [<], [<=], [>], [>=] between floats, and between a float
      and an int (exact); [None] when a NaN makes every ordering test
      false. *)
  f_cmp : F -> F -> option comparison;
  f_cmp_Z : F -> Z -> option comparison;

  f_eqb_sym : forall a b, f_eqb a b = f_eqb b a;
  f_eqb_trans : forall a b c, f_eqb a b = true -> f_eqb b c = true -> f_eqb a c = true;
  f_eq_Z_unique : forall f a b, f_eq_Z f a = true -> f_eq_Z f b = true -> a = b;
  f_eq_Z_eqb : forall f g a, f_eq_Z f a = true -> f_eq_Z g a = true -> f_eqb f g = true;
  f_eq_Z_trans : forall f g a, f_eq_Z f a = true -> f_eqb f g = true -> f_eq_Z g a = true;
  f_cmp_opp : forall a b, f_cmp b a = option_map CompOpp (f_cmp a b);
  (** [float(0)] is a zero. *)
  f_of_Z_zero : exists z, f_of_Z 0 = Ret z /\ f_is_zero z = true
}.

(** [str(n)] for an int. *)
Definition Z_to_dec (z : Z) : string := NilZero.string_of_int (Z.to_int z).

(** ** An exact-rational instance, for running concrete inputs *)
Module QInstance.

Definition is_digit (c : ascii) : bool :=
  let n := nat_of_ascii c in (48 <=? n)%nat && (n <=? 57)%nat.

Fixpoint digits_acc (acc : Z) (s : list ascii) : option (Z * nat) :=
  match s with
  | [] => Some (acc, 0%nat)
  | c :: r =>
      if is_digit c then
        match digits_acc (acc * 10 + Z.of_nat (nat_of_ascii c - 48)) r with
        | Some (v, n) => Some (v, S n)
        | None => None
        end
      else None
  end.

Fixpoint split_dot (l : list ascii) : list ascii * option (list ascii) :=
  match l with
  | [] => ([], None)
  | c :: r => if Ascii.eqb c "." then ([], Some r)
              else let '(a, b) := split_dot r in (c :: a, b)
  end.

(** Optional sign, digits, optionally a dot and digits; at least one digit. *)
Definition q_parse (s : string) : outcome Q :=
  let l := list_ascii_of_string s in
  let '(sg, l) := match l with
                  | "-"%char :: r => ((-1)%Z, r)
                  | "+"%char :: r => (1%Z, r)
                  | _ => (1%Z, l)
                  end in
  let '(ip, fp) := split_dot l in
  match digits_acc 0 ip, digits_acc 0 (match fp with Some f => f | None => [] end) with
  | Some (v1, n1), Some (v2, n2) =>
      if (1 <=? n1 + n2)%nat
      then Ret (inject_Z sg * (inject_Z v1 + Qmake v2 (Z.to_pos (10 ^ Z.of_nat n2))))%Q
      else Raise ValueError
  | _, _ => Raise ValueError
  end.

Definition q_trunc (q : Q) : outcome Z := Ret (Z.quot (Qnum q) (Zpos (Qden q))).

Definition q_of_dec (m : Z) (k : nat) : Q := Qmake m (Z.to_pos (10 ^ Z.of_nat k)).

(** [k] zeros in front of [s] when [s] is shorter than [k]. *)
Definition zpad (k : nat) (s : string) : string :=
  Nat.iter (k - String.length s) (String "0"%char) s.

(** [str(q)]: an integral value with [".0"], a value with a terminating
    decimal expansion exactly, any other value truncated to 16 decimals
    (Python prints the shortest decimal that reads back as the same IEEE
    double, which an exact rational does not determine). *)
Definition q_repr (q : Q) : string :=
  let r := Qred q in
  let a := Z.abs (Qnum r) in
  let d := Zpos (Qden r) in
  let sign := if (Qnum r <? 0)%Z then "-"%string else ""%string in
  if (d =? 1)%Z then (sign ++ Z_to_dec a ++ ".0")%string
  else
    let k := match List.find (fun k => ((a * 10 ^ Z.of_nat k) mod d =? 0)%Z) (seq 1 16) with
             | Some k => k
             | None => 16%nat
             end in
    let scaled := (a * 10 ^ Z.of_nat k / d)%Z in
    (sign ++ Z_to_dec (scaled / 10 ^ Z.of_nat k) ++ "." ++
       zpad k (Z_to_dec (scaled mod 10 ^ Z.of_nat k)))%string.

Lemma qeqb_sym a b : Qeq_bool a b = Qeq_bool b a.
Proof. apply Bool.eq_true_iff_eq. rewrite !Qeq_bool_iff. split; intros; by symmetry. Qed.

Lemma qeqb_trans a b c : Qeq_bool a b = true -> Qeq_bool b c = true -> Qeq_bool a c = true.
Proof. rewrite !Qeq_bool_iff. intros H1 H2. by rewrite H1. Qed.

Lemma qeqZ_unique f a b :
  Qeq_bool f (inject_Z a) = true -> Qeq_bool f (inject_Z b) = true -> a = b.
Proof.
  rewrite !Qeq_bool_iff. intros H1 H2. apply inject_Z_injective.
  by rewrite <- H1, <- H2.
Qed.

Lemma qeqZ_eqb f g a :
  Qeq_bool f (inject_Z a) = true -> Qeq_bool g (inject_Z a) = true -> Qeq_bool f g = true.
Proof. rewrite !Qeq_bool_iff. intros H1 H2. by rewrite H1, H2. Qed.

Lemma qeqZ_trans f g a :
  Qeq_bool f (inject_Z a) = true -> Qeq_bool f g = true -> Qeq_bool g (inject_Z a) = true.
Proof. rewrite !Qeq_bool_iff. intros H1 H2. by rewrite <- H2. Qed.

End QInstance.

#[export] Instance QFloat : PyFloat := {
  F := Q;
  f_of_dec := QInstance.q_of_dec;
  f_of_Z z := Ret (inject_Z z);
  f_truediv_Z a b := Ret (inject_Z a / inject_Z b)%Q;
  f_add := Qplus;
  f_sub := Qminus;
  f_mul := Qmult;
  f_div := Qdiv;
  f_is_zero q := Qeq_bool q 0%Q;
  f_eqb := Qeq_bool;
  f_eq_Z f z := Qeq_bool f (inject_Z z);
  f_trunc := QInstance.q_trunc;
  f_parse := QInstance.q_parse;
  i_parse s := obind (QInstance.q_parse s) (fun q => Ret (Qnum q));
  f_repr := QInstance.q_repr;
  f_e := (27182818 # 10000000)%Q;
  f_pi := (31415927 # 10000000)%Q;
  f_cmp a b := Some (Qcompare a b);
  f_cmp_Z f z := Some (Qcompare f (inject_Z z));
  f_eqb_sym := QInstance.qeqb_sym;
  f_eqb_trans := QInstance.qeqb_trans;
  f_eq_Z_unique := QInstance.qeqZ_unique;
  f_eq_Z_eqb := QInstance.qeqZ_eqb;
  f_eq_Z_trans := QInstance.qeqZ_trans;
  f_cmp_opp a b := f_equal Some (eq_sym (Qcompare_antisym a b));
  f_of_Z_zero := ex_intro _ 0%Q (conj eq_refl eq_refl)
}.
