(* ===== verification/PyValue.v ===== *)
(** Python values carried by a token, and the Python operations the
    interpreter applies to them: [==], [int()], [float()], [str()] and the
    binary operators [+ - * /] reached through [functools.reduce] in the
    builtins of [function_table] (scheme.py 106-111).  Python's dynamic
    typing is kept: [+] on two strings concatenates, [*] of a string and an
    int repeats, every other mix of a string raises TypeError, and ints are
    converted to floats (OverflowError) before mixed arithmetic. *)

From Stdlib Require Import String Ascii ZArith List Bool.
From stdpp Require Import base tactics.
From S2P Require Import Prelude PyNum.
Import ListNotations.

Section Values.
Context {PF : PyFloat}.

(** The [value] field of a [Tok]: a Python int, float or str. *)
Inductive pyval :=
  | VInt (z : Z)
  | VFlo (f : F)
  | VStr (s : string).

(** Python's [a == b] on these values. *)
Definition py_eqb (a b : pyval) : bool :=
  match a, b with
  | VInt x, VInt y => Z.eqb x y
  | VInt x, VFlo g => f_eq_Z g x
  | VFlo f, VInt y => f_eq_Z f y
  | VFlo f, VFlo g => f_eqb f g
  | VStr s, VStr t => String.eqb s t
  | _, _ => false
  end.

(** [int(v)] *)
Definition py_int (v : pyval) : outcome pyval :=
  match v with
  | VInt z => Ret (VInt z)
  | VFlo f => obind (f_trunc f) (fun z => Ret (VInt z))
  | VStr s => obind (i_parse s) (fun z => Ret (VInt z))
  end.

(** [float(v)] *)
Definition py_float (v : pyval) : outcome pyval :=
  match v with
  | VInt z => obind (f_of_Z z) (fun f => Ret (VFlo f))
  | VFlo f => Ret (VFlo f)
  | VStr s => obind (f_parse s) (fun f => Ret (VFlo f))
  end.

(** [str(v)] *)
Definition py_str (v : pyval) : pyval :=
  match v with
  | VInt z => VStr (Z_to_dec z)
  | VFlo f => VStr (f_repr f)
  | VStr s => VStr s
  end.

(** [s * n] for a str and an int: [n] copies, none when [n <= 0]. *)
Definition str_repeat (s : string) (n : Z) : string :=
  Nat.iter (Z.to_nat n) (fun acc => s ++ acc)%string EmptyString.

(** A numeric operator: int with int stays int, otherwise both sides are
    converted to float first. *)
Definition py_num_op (zop : Z -> Z -> Z) (fop : F -> F -> F) (a b : pyval) : outcome pyval :=
  match a, b with
  | VInt x, VInt y => Ret (VInt (zop x y))
  | VInt x, VFlo g => obind (f_of_Z x) (fun fx => Ret (VFlo (fop fx g)))
  | VFlo f, VInt y => obind (f_of_Z y) (fun fy => Ret (VFlo (fop f fy)))
  | VFlo f, VFlo g => Ret (VFlo (fop f g))
  | _, _ => Raise TypeError
  end.

Definition py_add (a b : pyval) : outcome pyval :=
  match a, b with
  | VStr s, VStr t => Ret (VStr (s ++ t))
  | _, _ => py_num_op Z.add f_add a b
  end.

Definition py_sub (a b : pyval) : outcome pyval := py_num_op Z.sub f_sub a b.

Definition py_mul (a b : pyval) : outcome pyval :=
  match a, b with
  | VStr s, VInt n => Ret (VStr (str_repeat s n))
  | VInt n, VStr s => Ret (VStr (str_repeat s n))
  | _, _ => py_num_op Z.mul f_mul a b
  end.

(** True division.  int / int checks the divisor first; a float division
    converts both operands, then checks the divisor. *)
Definition py_truediv (a b : pyval) : outcome pyval :=
  match a, b with
  | VInt x, VInt y =>
      if Z.eqb y 0 then Raise ZeroDivisionError
      else obind (f_truediv_Z x y) (fun q => Ret (VFlo q))
  | VInt x, VFlo g =>
      obind (f_of_Z x) (fun fx =>
        if f_is_zero g then Raise ZeroDivisionError else Ret (VFlo (f_div fx g)))
  | VFlo f, VInt y =>
      obind (f_of_Z y) (fun fy =>
        if f_is_zero fy then Raise ZeroDivisionError else Ret (VFlo (f_div f fy)))
  | VFlo f, VFlo g =>
      if f_is_zero g then Raise ZeroDivisionError else Ret (VFlo (f_div f g))
  | _, _ => Raise TypeError
  end.

(** [functools.reduce(f, xs)] without an initial value. *)
Definition py_reduce (f : pyval -> pyval -> outcome pyval) (xs : list pyval) : outcome pyval :=
  match xs with
  | [] => Raise TypeError
  | x :: r => fold_left (fun acc y => obind acc (fun a => f a y)) r (Ret x)
  end.

(** ** Laws of [==] *)

Lemma py_eqb_sym a b : py_eqb a b = py_eqb b a.
Proof.
  destruct a, b; simpl; try done.
  - apply Z.eqb_sym.
  - apply f_eqb_sym.
  - apply String.eqb_sym.
Qed.

Lemma py_eqb_trans a b c : py_eqb a b = true -> py_eqb b c = true -> py_eqb a c = true.
Proof.
  destruct a as [x|f|s], b as [y|g|t], c as [w|h|u]; simpl; try done;
    intros H1 H2;
    repeat match goal with
           | H : Z.eqb _ _ = true |- _ => apply Z.eqb_eq in H; subst
           | H : String.eqb _ _ = true |- _ => apply String.eqb_eq in H; subst
           end; try done.
  all: first [ apply Z.eqb_refl | apply String.eqb_refl
             | by apply Z.eqb_eq; eapply f_eq_Z_unique; eauto
             | by eapply f_eq_Z_trans; eauto
             | by eapply f_eq_Z_eqb; eauto
             | by eapply f_eq_Z_trans; [eauto | rewrite f_eqb_sym; eauto]
             | by eapply f_eqb_trans; eauto ].
Qed.

Lemma py_eqb_str s : py_eqb (VStr s) (VStr s) = true.
Proof. apply String.eqb_refl. Qed.

Lemma py_reduce_cons (f : pyval -> pyval -> outcome pyval) x y r :
  py_reduce f (x :: y :: r) = obind (f x y) (fun a => py_reduce f (a :: r)).
Proof.
  simpl. destruct (f x y) as [a|e]; simpl; [done|].
  induction r as [|z r IH]; simpl; done.
Qed.
End Values.

Arguments pyval {_}.
