(* ===== verification/Token.v ===== *)
(** Tokens: class [Tok] (scheme.py 13-54, duplicated in token.py 6-47),
    the classification [determine] of a lexed run (scheme.py 57-76) and the
    value extraction [tokv] (scheme.py 87-91).

    [determine] is specified by the relation [determine_spec], read off the
    code's three tests; [determine_correct] shows the function meets it.
    The relation makes visible that a run containing a dot that is not
    [digits.digits] falls off the end of the Python function, which then
    returns [None] (not a Symbol, as the spec says). *)

From Stdlib Require Import String Ascii ZArith List Bool Lia.
From stdpp Require Import base tactics.
From S2P Require Import Prelude PyNum PyValue.
Import ListNotations.

(** The four kind strings [INT], [FLO], [SYM], [FUN] (scheme.py 8-11). *)
Inductive token_kind := INT | FLO | SYM | FUN.

#[export] Instance token_kind_eq_dec : EqDecision token_kind.
Proof. solve_decision. Defined.

Definition kind_eqb (a b : token_kind) : bool := bool_decide (a = b).

Section Tokens.
Context {PF : PyFloat}.

(** [Tok(value, kind)] *)
Record tok := Tok { value : pyval; kind : token_kind }.

(** [Tok.__eq__]: [(self.value == other.value) and (self.kind == other.kind)] *)
Definition tok_eqb (a b : tok) : bool := py_eqb (value a) (value b) && kind_eqb (kind a) (kind b).

Definition sym (s : string) : tok := Tok (VStr s) SYM.
Definition lparen : tok := sym "(".
Definition rparen : tok := sym ")".
Definition tok_NIL : tok := sym "nil".
Definition tok_t : tok := sym "t".

(** ** [determine] *)

Definition is_digit (c : ascii) : bool :=
  let n := nat_of_ascii c in (48 <=? n)%nat && (n <=? 57)%nat.

(** [str.isnumeric()] on ASCII text: non-empty and all decimal digits. *)
Definition isnumeric (l : list ascii) : bool :=
  match l with [] => false | _ => forallb is_digit l end.

Definition digit_value (c : ascii) : Z := Z.of_nat (nat_of_ascii c - 48).

(** [int(s)] of a string of digits. *)
Definition decimal_value (l : list ascii) : Z :=
  fold_left (fun acc c => acc * 10 + digit_value c)%Z l 0%Z.

(** [str.split(sep)] *)
Fixpoint py_split (sep : ascii) (l : list ascii) : list (list ascii) :=
  match l with
  | [] => [[]]
  | c :: r =>
      if Ascii.eqb c sep then [] :: py_split sep r
      else match py_split sep r with
           | [] => [[c]]
           | w :: ws => (c :: w) :: ws
           end
  end.

Definition determine (s : string) : option tok :=
  let l := list_ascii_of_string s in
  if isnumeric l then Some (Tok (VInt (decimal_value l)) INT)
  else if existsb (Ascii.eqb "."%char) l then
    match py_split "."%char l with
    | [a; b] =>
        if isnumeric a && isnumeric b
        then Some (Tok (VFlo (f_of_dec (decimal_value (a ++ b)) (length b))) FLO)
        else None
    | _ => None
    end
  else Some (Tok (VStr s) SYM).

(** [tokv]: the Python value of a token, by its kind. *)
Definition tokv (t : tok) : outcome pyval :=
  match kind t with
  | INT => py_int (value t)
  | FLO => py_float (value t)
  | SYM => Ret (py_str (value t))
  | FUN => Ret (value t)
  end.

(** ** The classification, as the code's tests read *)
Inductive determine_spec : list ascii -> option tok -> Prop :=
  | ds_int l :
      isnumeric l = true ->
      determine_spec l (Some (Tok (VInt (decimal_value l)) INT))
  | ds_float a b :
      isnumeric a = true -> isnumeric b = true ->
      determine_spec (a ++ "."%char :: b)
        (Some (Tok (VFlo (f_of_dec (decimal_value (a ++ b)) (length b))) FLO))
  | ds_dot_other l :
      In "."%char l -> isnumeric l = false ->
      (forall a b, l = a ++ "."%char :: b -> isnumeric a && isnumeric b = false) ->
      determine_spec l None
  | ds_symbol l :
      ~ In "."%char l -> isnumeric l = false ->
      determine_spec l (Some (Tok (VStr (string_of_list_ascii l)) SYM)).

(** ** Lemmas *)

Lemma tok_eqb_sym a b : tok_eqb a b = tok_eqb b a.
Proof.
  unfold tok_eqb, kind_eqb. rewrite py_eqb_sym.
  f_equal. apply bool_decide_ext. split; congruence.
Qed.

Lemma tok_eqb_trans a b c : tok_eqb a b = true -> tok_eqb b c = true -> tok_eqb a c = true.
Proof.
  unfold tok_eqb, kind_eqb. rewrite !andb_true_iff, !bool_decide_eq_true.
  intros [H1 K1] [H2 K2]. split; [eapply py_eqb_trans; eauto | congruence].
Qed.

Lemma tok_eqb_sym_refl s : tok_eqb (sym s) (sym s) = true.
Proof. unfold tok_eqb, sym; simpl. by rewrite String.eqb_refl. Qed.

Lemma tok_eqb_sym_iff s t : tok_eqb (sym s) (sym t) = true <-> s = t.
Proof.
  unfold tok_eqb; simpl. rewrite andb_true_iff, String.eqb_eq. unfold kind_eqb.
  rewrite bool_decide_eq_true. tauto.
Qed.

Lemma tok_eqb_kind a b : kind a <> kind b -> tok_eqb a b = false.
Proof.
  intros Hk. unfold tok_eqb, kind_eqb. rewrite bool_decide_eq_false_2; [|done].
  apply andb_false_r.
Qed.

(** [split] on a list with no separator *)
Lemma py_split_no_sep c l : ~ In c l -> py_split c l = [l].
Proof.
  induction l as [|x r IH]; intros Hn; [done|]. simpl.
  destruct (Ascii.eqb_spec x c) as [->|Hne]; [by destruct Hn; left|].
  rewrite IH; [done|]. intros Hin; apply Hn; by right.
Qed.

(** [split] at the first separator *)
Lemma py_split_app c w l : ~ In c w -> py_split c (w ++ c :: l) = w :: py_split c l.
Proof.
  induction w as [|x w IH]; intros Hn; simpl.
  - by rewrite Ascii.eqb_refl.
  - destruct (Ascii.eqb_spec x c) as [->|Hne]; [by destruct Hn; left|].
    rewrite IH; [done|]. intros Hin; apply Hn; by right.
Qed.

Lemma py_split_two c a b :
  ~ In c a -> ~ In c b -> py_split c (a ++ c :: b) = [a; b].
Proof. intros Ha Hb. by rewrite py_split_app, py_split_no_sep. Qed.

Lemma py_split_not_nil c l : py_split c l <> [].
Proof. destruct l as [|x r]; simpl; [done|]. by destruct (Ascii.eqb x c), (py_split c r). Qed.

Lemma py_split_one c l b : py_split c l = [b] -> l = b /\ ~ In c b.
Proof.
  revert b. induction l as [|x r IH]; intros b; simpl.
  - intros [= <-]. split; [done|by intros []].
  - destruct (Ascii.eqb_spec x c) as [->|Hne].
    + intros [= Hr]. by destruct (py_split_not_nil c r).
    + destruct (py_split c r) as [|w ws] eqn:E; [by intros [= <-]; destruct (py_split_not_nil c r)|].
      intros [= <- ->]. destruct (IH w ltac:(first [exact E|reflexivity])) as [-> Hw].
      split; [done|]. intros [->|Hin]; [done|]. by apply Hw.
Qed.

Lemma py_split_two_inv c l a b :
  py_split c l = [a; b] -> l = a ++ c :: b /\ ~ In c a /\ ~ In c b.
Proof.
  revert a. induction l as [|x r IH]; intros a; simpl; [done|].
  destruct (Ascii.eqb_spec x c) as [->|Hne].
  - intros [= <- Hr]. apply py_split_one in Hr as [-> Hb]. split; [done|split; [by intros []|done]].
  - destruct (py_split c r) as [|w ws] eqn:E; [done|].
    intros [= <- ->]. destruct (IH w ltac:(first [exact E|reflexivity])) as (-> & Hw & Hb).
    split; [done|split; [|done]]. intros [->|Hin]; [done|]. by apply Hw.
Qed.

Lemma isnumeric_dot l : In "."%char l -> isnumeric l = false.
Proof.
  intros Hin. destruct l as [|x r]; [done|]. unfold isnumeric.
  apply not_true_iff_false. intros Hall. rewrite forallb_forall in Hall.
  by specialize (Hall _ Hin).
Qed.

Lemma existsb_dot l : existsb (Ascii.eqb "."%char) l = true <-> In "."%char l.
Proof.
  rewrite existsb_exists. split.
  - intros (x & Hx & E). apply Ascii.eqb_eq in E. by subst.
  - intros Hin. exists "."%char. split; [done|]. apply Ascii.eqb_refl.
Qed.

(** Every decomposition at a dot of a run with two dots or more has a
    dot on one side, hence a non-numeric side. *)
Lemma dot_sides_numeric l a b :
  l = a ++ "."%char :: b -> isnumeric a && isnumeric b = true ->
  py_split "."%char l = [a; b].
Proof.
  intros -> Hn. apply andb_true_iff in Hn as [Ha Hb]. apply py_split_two.
  - intros Hin. by rewrite isnumeric_dot in Ha.
  - intros Hin. by rewrite isnumeric_dot in Hb.
Qed.

(** C6: [determine] classifies a word as the code's tests read: all
    digits give an INT token of its decimal value; two digit runs around
    one dot give a FLO token; any other word with a dot gives [None]; a
    word without a dot gives a SYM token of the word itself. *)
Lemma determine_correct s : determine_spec (list_ascii_of_string s) (determine s).
Proof.
  unfold determine. set (l := list_ascii_of_string s).
  destruct (isnumeric l) eqn:Hn; [by constructor|].
  destruct (existsb (Ascii.eqb "."%char) l) eqn:Hd.
  - apply existsb_dot in Hd.
    destruct (py_split "."%char l) as [|a [|b [|? ?]]] eqn:Hs;
      try (apply ds_dot_other; [done|done|]; intros a' b' Hl;
           apply not_true_iff_false; intros Hab;
           by rewrite (dot_sides_numeric _ _ _ Hl Hab) in Hs).
    apply py_split_two_inv in Hs as (Hl & Ha & Hb).
    destruct (isnumeric a && isnumeric b) eqn:Hab.
    + apply andb_true_iff in Hab as [Ha' Hb']. rewrite Hl. by constructor.
    + apply ds_dot_other; [done|done|]. intros a' b' Hl' .
      apply not_true_iff_false. intros Hab'.
      pose proof (dot_sides_numeric _ _ _ Hl' Hab') as Hs'.
      rewrite Hl, py_split_two in Hs' by done. injection Hs' as <- <-.
      by rewrite Hab in Hab'.
  - rewrite <- (string_of_list_ascii_of_string s). fold l.
    constructor; [|done]. intros Hin. apply existsb_dot in Hin. by rewrite Hin in Hd.
Qed.
End Tokens.

Arguments tok {_}.
