(* ===== verification/Compare.v ===== *)
(** The comparison builtins [std_greq], [std_sreq], [std_gr], [std_sr]
    (scheme.py 309-314): four one-entry dictionaries mapping [>=], [<=],
    [>], [<] to [lambda p1, p2: tok_t if p1 OP p2 else tok_NIL].

    No table of [evaluate] refers to them, so the interpreter never calls
    them; they are modelled as the functions they are, on the arguments
    Python would pass: a number or a str ([CVal]) or a [Tok] ([CTok]).
    Python's ordering on numbers compares ints exactly, ints with floats
    exactly and floats by IEEE order (a NaN makes every test false); two
    strs compare by code points; any other pair -- an int with a str, or
    anything with a [Tok], which defines no ordering method -- raises
    TypeError.

    Theorem: on ints the four lambdas decide the integer order
    ([cmp_int_decides]).  The comment above them (scheme.py 309-310) says
    they compare tokens; on a [Tok] they raise TypeError. *)

From Stdlib Require Import String Ascii ZArith List Bool Lia.
From stdpp Require Import base tactics.
From S2P Require Import Prelude PyNum PyValue Token.
Import ListNotations.

(** The operator of each dictionary. *)
Inductive cmp_op := OpGe | OpLe | OpGt | OpLt.

(** Whether an ordering outcome satisfies the operator; [None] (a NaN)
    satisfies none. *)
Definition cmp_holds (op : cmp_op) (c : option comparison) : bool :=
  match op, c with
  | OpGe, Some (Gt | Eq) | OpLe, Some (Lt | Eq) | OpGt, Some Gt | OpLt, Some Lt => true
  | _, _ => false
  end.

Section Compare.
Context {PF : PyFloat}.

(** An argument of the lambdas. *)
Inductive cmp_arg :=
  | CVal (v : pyval)
  | CTok (t : tok).

(** The order between two Python values, or TypeError. *)
Definition py_compare (a b : pyval) : outcome (option comparison) :=
  match a, b with
  | VInt x, VInt y => Ret (Some (Z.compare x y))
  | VInt x, VFlo g => Ret (option_map CompOpp (f_cmp_Z g x))
  | VFlo f, VInt y => Ret (f_cmp_Z f y)
  | VFlo f, VFlo g => Ret (f_cmp f g)
  | VStr s, VStr t => Ret (Some (String.compare s t))
  | _, _ => Raise TypeError
  end.

(** [p1 OP p2] *)
Definition py_cmp (op : cmp_op) (p1 p2 : cmp_arg) : outcome bool :=
  match p1, p2 with
  | CVal a, CVal b => obind (py_compare a b) (fun c => Ret (cmp_holds op c))
  | _, _ => Raise TypeError
  end.

(** [lambda p1, p2: tok_t if p1 OP p2 else tok_NIL] *)
Definition std_cmp (op : cmp_op) (p1 p2 : cmp_arg) : outcome tok :=
  obind (py_cmp op p1 p2) (fun b => Ret (if b then tok_t else tok_NIL)).

Definition std_greq : @dict tok cmp_op := [(sym ">=", OpGe)].
Definition std_sreq : @dict tok cmp_op := [(sym "<=", OpLe)].
Definition std_gr : @dict tok cmp_op := [(sym ">", OpGt)].
Definition std_sr : @dict tok cmp_op := [(sym "<", OpLt)].

(** ** Theorems *)

(** C29 (functional): on two ints, [>=], [<=], [>] and [<] return [t]
    exactly when the integer relation holds, and [nil] otherwise. *)
Theorem cmp_int_decides op a b :
  std_cmp op (CVal (VInt a)) (CVal (VInt b)) =
    Ret (if match op with
            | OpGe => (b <=? a)%Z | OpLe => (a <=? b)%Z
            | OpGt => (b <? a)%Z | OpLt => (a <? b)%Z
            end then tok_t else tok_NIL).
Proof.
  unfold std_cmp, py_cmp. cbn [py_compare obind]. f_equal.
  destruct op;
    [destruct (Z.leb_spec b a)|destruct (Z.leb_spec a b)
    |destruct (Z.ltb_spec b a)|destruct (Z.ltb_spec a b)];
    destruct (Z.compare_spec a b); cbn [cmp_holds]; try reflexivity; lia.
Qed.

End Compare.
