(* ===== verification/Lexer.v ===== *)
(** The lexer: [tokenize] (scheme.py 118-124).

    [re.findall] with the pattern [[()]|[-+]?[0-9]*\.?[0-9]+|[^\s\n\t()]+]
    scans left to right; at each position it tries the three alternatives in
    order and takes the first that matches, with Python's greedy,
    backtracking quantifiers; a position where none matches (whitespace) is
    skipped.  [match_number] is the outcome of backtracking on the second
    alternative: an optional sign, the maximal digit run, then a dot with at
    least one digit after it if there is one, else the digits alone (at least
    one).  Hence ["1."] lexes as ["1"] then ["."], and ["1.5.6"] as
    ["1.5"] then [".6"].

    [findall_fuel] takes fuel; [findall] gives it the input length.
    [scan_all] is the same scan as a fuel-free big-step relation (each
    step is [scan_one]; a derivation ends at the empty remainder), and
    [findall_terminates] shows that [findall] computes its one result:
    every step consumes a character, so the scan reaches the end of the
    input.  The runs concatenate to the input without its whitespace
    ([findall_concat]), and each run is non-empty, whitespace-free, and
    either a lone parenthesis or parenthesis-free ([findall_runs_ok]). *)

From Stdlib Require Import String Ascii ZArith List Bool Lia.
From stdpp Require Import base tactics.
From S2P Require Import Prelude PyNum PyValue Token.
Import ListNotations.

(** [\s] on ASCII: tab, newline, vertical tab, form feed, carriage return,
    the separators 0x1c-0x1f and space (Python's [str.isspace]). *)
Definition is_space (c : ascii) : bool :=
  let n := nat_of_ascii c in
  ((9 <=? n) && (n <=? 13)) || ((28 <=? n) && (n <=? 31)) || (n =? 32).

Definition is_paren (c : ascii) : bool := Ascii.eqb c "(" || Ascii.eqb c ")".
Definition is_sign (c : ascii) : bool := Ascii.eqb c "-" || Ascii.eqb c "+".

(** The class [[^\s\n\t()]]. *)
Definition is_word (c : ascii) : bool := negb (is_space c) && negb (is_paren c).

(** The longest prefix whose characters satisfy [p], and the rest. *)
Fixpoint span (p : ascii -> bool) (l : list ascii) : list ascii * list ascii :=
  match l with
  | c :: r => if p c then let '(a, b) := span p r in (c :: a, b) else ([], l)
  | [] => ([], [])
  end.

(** The second alternative [[-+]?[0-9]*\.?[0-9]+] at the head of [l]. *)
Definition match_number (l : list ascii) : option (list ascii * list ascii) :=
  let '(sg, l1) := match l with
                   | c :: r => if is_sign c then ([c], r) else ([], l)
                   | [] => ([], [])
                   end in
  let '(d1, l2) := span is_digit l1 in
  let digits_only := match d1 with [] => None | _ => Some (sg ++ d1, l2) end in
  match l2 with
  | c :: l3 =>
      if Ascii.eqb c "." then
        let '(d2, l4) := span is_digit l3 in
        match d2 with
        | [] => digits_only
        | _ => Some (sg ++ d1 ++ c :: d2, l4)
        end
      else digits_only
  | [] => digits_only
  end.

(** One step of [re.findall] at a position holding [c] followed by [r]: the
    alternatives in order; [None] when no alternative matches and the
    position is skipped. *)
Definition scan_one (c : ascii) (r : list ascii) : option (list ascii) * list ascii :=
  if is_paren c then (Some [c], r)
  else match match_number (c :: r) with
       | Some (m, rest) => (Some m, rest)
       | None =>
           if is_space c then (None, r)
           else let '(w, rest) := span is_word (c :: r) in (Some w, rest)
       end.

(** [re.findall]: repeat [scan_one] until the input is consumed. *)
Fixpoint findall_fuel (fuel : nat) (l : list ascii) : list (list ascii) :=
  match fuel, l with
  | O, _ => []
  | S _, [] => []
  | S n, c :: r =>
      let '(m, rest) := scan_one c r in
      match m with
      | Some w => w :: findall_fuel n rest
      | None => findall_fuel n rest
      end
  end.

Definition findall (l : list ascii) : list (list ascii) := findall_fuel (length l) l.

(** [re.findall] without fuel, as a big-step relation: the scan of [l]
    produces the runs [ws] and reaches the end of the input. *)
Inductive scan_all : list ascii -> list (list ascii) -> Prop :=
  | scan_nil : scan_all [] []
  | scan_skip c r rest ws :
      scan_one c r = (None, rest) -> scan_all rest ws -> scan_all (c :: r) ws
  | scan_emit c r w rest ws :
      scan_one c r = (Some w, rest) -> scan_all rest ws -> scan_all (c :: r) (w :: ws).

Section Tokenize.
Context {PF : PyFloat}.

(** [list(map(determine, regex.findall(expression)))] *)
Definition tokenize (s : string) : list (option tok) :=
  map (fun w => determine (string_of_list_ascii w)) (findall (list_ascii_of_string s)).
End Tokenize.

(** ** Lemmas on the scanner *)

Lemma span_spec p l :
  l = (span p l).1 ++ (span p l).2 /\ Forall (fun c => p c = true) (span p l).1.
Proof.
  induction l as [|c r [IH1 IH2]]; simpl; [done|].
  destruct (p c) eqn:E; simpl; [|done].
  destruct (span p r) as [a b]; simpl in *. split; [by f_equal|by constructor].
Qed.

Lemma span_length p l : length (span p l).2 <= length l.
Proof. rewrite (proj1 (span_spec p l)) at 2. rewrite length_app. lia. Qed.

Lemma span_progress p c r : p c = true -> length (span p (c :: r)).2 < length (c :: r).
Proof.
  intros Hc. simpl. rewrite Hc. destruct (span p r) as [a b] eqn:E. simpl.
  pose proof (span_length p r) as H. rewrite E in H. simpl in H. lia.
Qed.

(** A number match is a non-empty prefix made of signs, digits and dots. *)
Lemma match_number_spec l m rest :
  match_number l = Some (m, rest) ->
  l = m ++ rest /\ m <> [] /\
  Forall (fun c => is_sign c || is_digit c || Ascii.eqb c "." = true) m.
Proof.
  unfold match_number. intros H.
  assert (Hsg : exists sg l1, (match l with
                 | c :: r => if is_sign c then ([c], r) else ([], l)
                 | [] => ([], []) end) = (sg, l1) /\ l = sg ++ l1 /\
                 Forall (fun c => is_sign c = true) sg).
  { destruct l as [|c r]; [by exists [], []|]. destruct (is_sign c) eqn:E.
    - exists [c], r. split; [done|split; [done|by constructor]].
    - by exists [], (c :: r). }
  destruct Hsg as (sg & l1 & Heq & Hl & Hsg). rewrite Heq in H.
  destruct (span_spec is_digit l1) as [Hl1 Hd1].
  destruct (span is_digit l1) as [d1 l2] eqn:E1; simpl in Hl1, Hd1.
  assert (Hdigits : forall m' rest', (match d1 with [] => None | _ => Some (sg ++ d1, l2) end)
            = Some (m', rest') -> l = m' ++ rest' /\ m' <> [] /\
               Forall (fun c => is_sign c || is_digit c || Ascii.eqb c "." = true) m').
  { intros m' rest' Hm. destruct d1 as [|d ds]; [done|]. injection Hm as <- <-.
    split; [by rewrite Hl, Hl1, app_assoc|]. split; [by destruct sg|].
    apply Forall_app; split; eapply Forall_impl; eauto; intros c Hc; simpl in Hc;
      by rewrite Hc, ?orb_true_r. }
  destruct l2 as [|c l3]; [by apply Hdigits|].
  destruct (Ascii.eqb c ".") eqn:Ed; [|by apply Hdigits].
  destruct (span_spec is_digit l3) as [Hl3 Hd2].
  destruct (span is_digit l3) as [d2 l4]; simpl in Hl3, Hd2.
  destruct d2 as [|d ds]; [by apply Hdigits|]. injection H as <- <-.
  split; [rewrite Hl, Hl1, Hl3, <- !app_assoc; reflexivity|]. split; [by destruct sg, d1|].
  apply Forall_app; split; [eapply Forall_impl; eauto; intros x Hx; by rewrite Hx|].
  apply Forall_app; split; [eapply Forall_impl; eauto; intros x Hx; by rewrite Hx, orb_true_r|].
  constructor; [by rewrite Ed, orb_true_r|].
  eapply Forall_impl; eauto; intros x Hx; by rewrite Hx, orb_true_r.
Qed.

Lemma numchar_word c : is_sign c || is_digit c || Ascii.eqb c "." = true -> is_word c = true.
Proof. destruct c as [[] [] [] [] [] [] [] []]; vm_compute; congruence. Qed.

(** What a lexed run looks like. *)
Definition run_ok (w : list ascii) : Prop :=
  w <> [] /\ Forall (fun c => is_space c = false) w /\
  ((exists c, w = [c] /\ is_paren c = true) \/ Forall (fun c => is_paren c = false) w).

Lemma word_run_ok w : w <> [] -> Forall (fun c => is_word c = true) w -> run_ok w.
Proof.
  intros Hne Hw. split; [done|]. unfold is_word in Hw. split.
  - eapply Forall_impl; [|exact Hw]. intros c Hc. apply andb_true_iff in Hc as [H _].
    by apply negb_true_iff.
  - right. eapply Forall_impl; [|exact Hw]. intros c Hc. apply andb_true_iff in Hc as [_ H].
    by apply negb_true_iff.
Qed.

(** The step consumes at least one character. *)
Lemma scan_one_progress c r : length (scan_one c r).2 < length (c :: r).
Proof.
  unfold scan_one. destruct (is_paren c) eqn:Hp; [simpl; lia|].
  destruct (match_number (c :: r)) as [[m rest]|] eqn:Hm.
  { apply match_number_spec in Hm as (Hl & Hne & _).
    assert (Hlen : length (c :: r) = length m + length rest) by (by rewrite Hl, length_app).
    simpl in Hlen |- *. destruct m; [done|simpl in Hlen; lia]. }
  destruct (is_space c) eqn:Hs; [simpl; lia|].
  assert (Hw : is_word c = true) by (unfold is_word; by rewrite Hs, Hp).
  pose proof (span_progress is_word c r Hw) as Hlen.
  by destruct (span is_word (c :: r)).
Qed.

(** What the step returns is a run of the input or a skipped whitespace
    character. *)
Lemma scan_one_spec c r :
  match (scan_one c r).1 with
  | None => is_space c = true /\ (scan_one c r).2 = r
  | Some w => c :: r = w ++ (scan_one c r).2 /\ run_ok w
  end.
Proof.
  unfold scan_one. destruct (is_paren c) eqn:Hp.
  { simpl. split; [done|]. split; [done|]. split.
    - constructor; [|done]. revert Hp. destruct c as [[] [] [] [] [] [] [] []]; vm_compute; congruence.
    - left. by exists c. }
  destruct (match_number (c :: r)) as [[m rest]|] eqn:Hm.
  { apply match_number_spec in Hm as (Hl & Hne & Hchars).
    split; [exact Hl|]. apply word_run_ok; [done|].
    eapply Forall_impl; [|exact Hchars]. apply numchar_word. }
  destruct (is_space c) eqn:Hs; [done|].
  assert (Hw : is_word c = true) by (unfold is_word; by rewrite Hs, Hp).
  destruct (span_spec is_word (c :: r)) as [Hl Hall].
  destruct (span is_word (c :: r)) as [w rest] eqn:E; simpl in *.
  split; [done|]. apply word_run_ok; [|done].
  intros ->. simpl in E. rewrite Hw in E. by destruct (span is_word r).
Qed.

(** With fuel for every character, the fuelled scan is a derivation of
    [scan_all]. *)
Lemma findall_fuel_scan_all n l : length l <= n -> scan_all l (findall_fuel n l).
Proof.
  revert l. induction n as [|n IH]; intros l Hn.
  - destruct l; [constructor|simpl in Hn; lia].
  - destruct l as [|c r]; [constructor|]. simpl findall_fuel.
    pose proof (scan_one_progress c r) as Hlen.
    destruct (scan_one c r) as [[w|] rest] eqn:E; simpl in Hlen, Hn.
    + eapply scan_emit; [exact E|]. apply IH. lia.
    + eapply scan_skip; [exact E|]. apply IH. lia.
Qed.

(** [scan_all] is deterministic: [scan_one] is a function. *)
Lemma scan_all_det l ws1 ws2 : scan_all l ws1 -> scan_all l ws2 -> ws1 = ws2.
Proof.
  intros H1. revert ws2.
  induction H1 as [|c r rest ws E _ IH|c r w rest ws E _ IH]; intros ws2 H2;
    inversion H2 as [|c' r' rest' ws' E'|c' r' w' rest' ws' E']; subst; try done;
    rewrite E in E'; simplify_eq; f_equal; by apply IH.
Qed.

Lemma filter_run w : run_ok w -> List.filter (fun c => negb (is_space c)) w = w.
Proof.
  intros (_ & Hs & _). induction Hs as [|c w Hc _ IH]; [done|]. simpl. by rewrite Hc, IH.
Qed.

Lemma findall_fuel_concat n l :
  length l <= n -> concat (findall_fuel n l) = List.filter (fun c => negb (is_space c)) l.
Proof.
  revert l. induction n as [|n IH]; intros l Hn.
  - destruct l; [done|simpl in Hn; lia].
  - destruct l as [|c r]; [done|]. simpl findall_fuel.
    pose proof (scan_one_progress c r) as Hlen. pose proof (scan_one_spec c r) as Hspec.
    destruct (scan_one c r) as [[w|] rest]; simpl in Hlen, Hspec, Hn; lazy beta iota.
    + destruct Hspec as [Hl Hok]. rewrite Hl, List.filter_app, filter_run by done.
      cbn [concat]. f_equal. apply IH. lia.
    + destruct Hspec as [Hs ->]. simpl. rewrite Hs. simpl. apply IH. lia.
Qed.

Lemma findall_fuel_runs n l : length l <= n -> Forall run_ok (findall_fuel n l).
Proof.
  revert l. induction n as [|n IH]; intros l Hn; [by constructor|].
  destruct l as [|c r]; [by constructor|]. simpl findall_fuel.
  pose proof (scan_one_progress c r) as Hlen. pose proof (scan_one_spec c r) as Hspec.
  destruct (scan_one c r) as [[w|] rest]; simpl in Hlen, Hspec, Hn |- *.
  - constructor; [apply Hspec|]. apply IH. lia.
  - apply IH. lia.
Qed.

(** ** Properties of [findall] *)

(** C11: the lexer loses exactly the whitespace of the input. *)
Theorem findall_concat l :
  concat (findall l) = List.filter (fun c => negb (is_space c)) l.
Proof. by apply findall_fuel_concat. Qed.

(** C18: every run is non-empty and whitespace-free, and is either a single
    parenthesis or contains none. *)
Theorem findall_runs_ok l : Forall run_ok (findall l).
Proof. by apply findall_fuel_runs. Qed.

(** C9 (termination): [re.findall] runs to the end of its input: the
    fuelled scan [findall] is the one result of the fuel-free big-step
    semantics [scan_all], which only derives a result when the repeated
    [scan_one] steps reach the empty remainder. *)
Theorem findall_terminates l ws : scan_all l ws <-> ws = findall l.
Proof.
  pose proof (findall_fuel_scan_all (length l) l (le_n _)) as H. split.
  - intros H'. exact (scan_all_det _ _ _ H' H).
  - by intros ->.
Qed.

Section Runs.
Context {PF : PyFloat}.

Definition int_tok (z : Z) : tok := Tok (VInt z) INT.

(** The three cases of [test()] for [tokenize] (scheme.py 361-387). *)
Example tokenize_test_cases :
  tokenize "(+ 1 2)" = map Some [lparen; sym "+"; int_tok 1; int_tok 2; rparen] /\
  tokenize "(+ x y)" = map Some [lparen; sym "+"; sym "x"; sym "y"; rparen] /\
  tokenize "(+ (* a b) (expt c d))" =
    map Some [lparen; sym "+"; lparen; sym "*"; sym "a"; sym "b"; rparen;
              lparen; sym "expt"; sym "c"; sym "d"; rparen; rparen].
Proof. repeat split; reflexivity. Qed.

(** A signed numeral is matched by the number alternative but is not
    [isnumeric], so it becomes a Symbol; a run with a stray dot becomes
    Python [None]. *)
Example tokenize_signed_and_dotted :
  tokenize "(- -5 1.5.6 a.b)" =
    [Some lparen; Some (sym "-"); Some (sym "-5");
     Some (Tok (VFlo (f_of_dec 15 1)) FLO); None; None; Some rparen].
Proof. reflexivity. Qed.
End Runs.
