(* ===== verification/Parser.v ===== *)
(** The parser: [parse] (scheme.py 127-153) and the parenthesis count that
    [eval_expr] performs before it (scheme.py 243-247).

    [parse] walks the tokens with a stack of unfinished lists and an
    accumulator.  The stack is a Python list used at its end; here its top
    is the head.  A [None] token (from [determine]) makes the comparison
    [token == Tok("(", SYM)] call [Tok.__eq__] with [other = None], which
    raises AttributeError; popping the empty stack raises IndexError.

    Theorems: [parse] inverts the printer [unparse] ([parse_unparse]); on a
    well nested stream it succeeds and keeps the non-parenthesis tokens in
    order ([parse_leaves]); it raises IndexError exactly when a [")"] has no
    open partner ([parse_underflow_iff]), which the count of [eval_expr]
    (the number of ["("] minus the number of [")"], [balance_counts]) does
    not rule out: [") ("] passes the count and raises IndexError. *)

From Stdlib Require Import String Ascii ZArith List Bool Lia.
From stdpp Require Import base tactics.
From S2P Require Import Prelude PyNum PyValue Token.
Import ListNotations.

Section Parser.
Context {PF : PyFloat}.

(** A parse tree: a token, or a Python list of trees. *)
Inductive expr :=
  | ETok (t : tok)
  | EList (es : list expr).

(** Induction over trees with a hypothesis for every element of a list. *)
Section ExprInd.
Variable P : expr -> Prop.
Hypothesis HTok : forall t, P (ETok t).
Hypothesis HList : forall es, Forall P es -> P (EList es).

Fixpoint expr_ind' (e : expr) : P e :=
  match e with
  | ETok t => HTok t
  | EList es =>
      HList es ((fix go (l : list expr) : Forall P l :=
                   match l with
                   | [] => Forall_nil P
                   | x :: r => Forall_cons x (expr_ind' x) (go r)
                   end) es)
  end.
End ExprInd.

Definition is_lparen (t : tok) : bool := tok_eqb t lparen.
Definition is_rparen (t : tok) : bool := tok_eqb t rparen.

(** The loop of [parse]: [stack] holds the enclosing accumulators. *)
Fixpoint parse_loop (tokens : list (option tok)) (stack : list (list expr))
    (acc : list expr) : outcome (list expr) :=
  match tokens with
  | [] => Ret acc
  | None :: _ => Raise AttributeError
  | Some t :: rest =>
      if is_lparen t then parse_loop rest (acc :: stack) []
      else if is_rparen t then
        match stack with
        | [] => Raise IndexError
        | top :: stack' => parse_loop rest stack' (top ++ [EList acc])
        end
      else parse_loop rest stack (acc ++ [ETok t])
  end.

Definition parse (tokens : list (option tok)) : outcome (list expr) :=
  parse_loop tokens [] [].

(** The count of [eval_expr]: +1 for ["("], -1 for [")"]. *)
Fixpoint balance_loop (tokens : list (option tok)) (balance : Z) : outcome Z :=
  match tokens with
  | [] => Ret balance
  | None :: _ => Raise AttributeError
  | Some t :: rest =>
      if is_lparen t then balance_loop rest (balance + 1)
      else if is_rparen t then balance_loop rest (balance - 1)
      else balance_loop rest balance
  end.

Definition balance (tokens : list (option tok)) : outcome Z := balance_loop tokens 0.

(** ** Printing, leaves, nesting *)

Fixpoint unparse (e : expr) : list tok :=
  match e with
  | ETok t => [t]
  | EList es => lparen :: flat_map unparse es ++ [rparen]
  end.

Fixpoint leaves (e : expr) : list tok :=
  match e with
  | ETok t => [t]
  | EList es => flat_map leaves es
  end.

Definition atom_ok (t : tok) : bool := negb (is_lparen t) && negb (is_rparen t).

(** Whether a token stream, entered at depth [d], is well nested. *)
Fixpoint wellnested (ts : list tok) (d : nat) : bool :=
  match ts with
  | [] => Nat.eqb d 0
  | t :: r =>
      if is_lparen t then wellnested r (S d)
      else if is_rparen t then match d with O => false | S d' => wellnested r d' end
      else wellnested r d
  end.

(** Whether a [")"] is met at depth 0, entered at depth [d]. *)
Fixpoint underflows (ts : list tok) (d : nat) : bool :=
  match ts with
  | [] => false
  | t :: r =>
      if is_lparen t then underflows r (S d)
      else if is_rparen t then match d with O => true | S d' => underflows r d' end
      else underflows r d
  end.

Definition stack_leaves (stack : list (list expr)) : list tok :=
  flat_map (flat_map leaves) (rev stack).

Definition expr_ok (e : expr) : Prop := Forall (fun t => atom_ok t = true) (leaves e).

(** ** Lemmas *)

Lemma is_lparen_lparen : is_lparen lparen = true.
Proof. apply tok_eqb_sym_refl. Qed.

Lemma is_lparen_rparen : is_lparen rparen = false.
Proof. reflexivity. Qed.

Lemma is_rparen_rparen : is_rparen rparen = true.
Proof. apply tok_eqb_sym_refl. Qed.

Lemma atom_ok_false t : atom_ok t = false -> is_lparen t = true \/ is_rparen t = true.
Proof. unfold atom_ok. destruct (is_lparen t), (is_rparen t); simpl; auto. Qed.

Lemma parse_loop_atom t ts stack acc :
  atom_ok t = true ->
  parse_loop (Some t :: ts) stack acc = parse_loop ts stack (acc ++ [ETok t]).
Proof.
  unfold atom_ok. intros H. apply andb_true_iff in H as [H1 H2].
  apply negb_true_iff in H1, H2. simpl. by rewrite H1, H2.
Qed.

Lemma expr_ok_list es : expr_ok (EList es) <-> Forall expr_ok es.
Proof.
  unfold expr_ok; simpl. induction es as [|e es IH]; simpl.
  - split; constructor.
  - rewrite Forall_app, IH. split; [intros [? ?]; by constructor|].
    intros Hf. by inversion Hf.
Qed.

(** Reading the prints of a sequence of trees, each of which reads back
    as itself, appends the sequence. *)
Lemma parse_loop_seq es :
  Forall (fun e => forall ts st a,
            parse_loop (map Some (unparse e) ++ ts) st a = parse_loop ts st (a ++ [e])) es ->
  forall ts st a,
  parse_loop (map Some (flat_map unparse es) ++ ts) st a = parse_loop ts st (a ++ es).
Proof.
  induction 1 as [|e es He _ IH]; intros ts st a; simpl; [by rewrite app_nil_r|].
  rewrite map_app, <- app_assoc, He, IH. by rewrite <- app_assoc.
Qed.

(** Reading the print of one tree appends that tree to the accumulator. *)
Lemma parse_loop_unparse e :
  expr_ok e -> forall ts stack acc,
  parse_loop (map Some (unparse e) ++ ts) stack acc = parse_loop ts stack (acc ++ [e]).
Proof.
  induction e as [t|es IH] using expr_ind'; intros Hok ts stack acc.
  - simpl. apply parse_loop_atom. unfold expr_ok in Hok. by inversion Hok.
  - apply expr_ok_list in Hok. simpl. try rewrite is_lparen_lparen.
    rewrite map_app, <- app_assoc. simpl. rewrite parse_loop_seq; simpl.
    + by try rewrite is_lparen_rparen, is_rparen_rparen.
    + apply Forall_forall. intros e He. rewrite Forall_forall in IH, Hok.
      by apply IH, Hok.
Qed.

Lemma stack_leaves_cons top stack :
  stack_leaves (top :: stack) = stack_leaves stack ++ flat_map leaves top.
Proof. unfold stack_leaves. simpl. rewrite flat_map_app; simpl; by rewrite app_nil_r. Qed.

Lemma flat_map_leaves_snoc acc e : flat_map leaves (acc ++ [e]) = flat_map leaves acc ++ leaves e.
Proof. by rewrite flat_map_app; simpl; rewrite app_nil_r. Qed.

Lemma parse_loop_leaves ts stack acc :
  wellnested ts (length stack) = true ->
  exists es, parse_loop (map Some ts) stack acc = Ret es /\
    flat_map leaves es = stack_leaves stack ++ flat_map leaves acc ++ List.filter atom_ok ts.
Proof.
  revert stack acc. induction ts as [|t ts IH]; intros stack acc Hw; simpl in *.
  - destruct stack; [|done]. exists acc. split; [done|]. simpl. by rewrite app_nil_r.
  - destruct (is_lparen t) eqn:Hl; simpl.
    { replace (atom_ok t) with false by (unfold atom_ok; by rewrite Hl).
      destruct (IH (acc :: stack) [] Hw) as (es & Hp & Hlv). exists es. split; [done|].
      rewrite Hlv, stack_leaves_cons. by rewrite <- app_assoc. }
    destruct (is_rparen t) eqn:Hr; simpl.
    { replace (atom_ok t) with false by (unfold atom_ok; by rewrite Hl, Hr).
      destruct stack as [|top st]; [done|]. simpl in Hw.
      destruct (IH st (top ++ [EList acc]) Hw) as (es & Hp & Hlv). exists es. split; [done|].
      rewrite Hlv, stack_leaves_cons, flat_map_leaves_snoc. simpl. by rewrite <- !app_assoc. }
    replace (atom_ok t) with true by (unfold atom_ok; by rewrite Hl, Hr).
    destruct (IH stack (acc ++ [ETok t]) Hw) as (es & Hp & Hlv). exists es. split; [done|].
    rewrite Hlv, flat_map_leaves_snoc. simpl. by rewrite <- !app_assoc.
Qed.

(** ** Theorems *)

(** C5: [parse] inverts the printer on trees whose atoms are not
    parentheses. *)
Theorem parse_unparse es :
  Forall expr_ok es -> parse (map Some (flat_map unparse es)) = Ret es.
Proof.
  intros Hok. unfold parse. rewrite <- (app_nil_r (map Some _)).
  rewrite parse_loop_seq; [done|].
  eapply Forall_impl; [|exact Hok]. intros e He. by apply parse_loop_unparse.
Qed.

(** C13: on a well nested stream without [None], [parse] succeeds and the
    leaves of its result, read left to right, are the input tokens with the
    parentheses removed (the spec's round-trip property). *)
Theorem parse_leaves ts :
  wellnested ts 0 = true ->
  exists es, parse (map Some ts) = Ret es /\ flat_map leaves es = List.filter atom_ok ts.
Proof.
  intros Hw. destruct (parse_loop_leaves ts [] [] Hw) as (es & Hp & Hlv).
  exists es. split; [done|]. by rewrite Hlv.
Qed.

(** C17: without [None] tokens, [parse] raises IndexError exactly when a
    [")"] is met with no open partner; otherwise it returns a value. *)
Theorem parse_underflow_iff ts stack acc :
  parse_loop (map Some ts) stack acc = Raise IndexError <-> underflows ts (length stack) = true.
Proof.
  revert stack acc. induction ts as [|t ts IH]; intros stack acc; simpl; [done|].
  destruct (is_lparen t); [apply (IH (acc :: stack))|].
  destruct (is_rparen t); [|apply IH]. destruct stack as [|top st]; [done|]. apply IH.
Qed.

(** The count of [eval_expr] is the number of ["("] minus the number of
    [")"]. *)
Lemma balance_loop_count ts b :
  balance_loop (map Some ts) b =
  Ret (b + Z.of_nat (length (List.filter is_lparen ts)) - Z.of_nat (length (List.filter
         (fun t => negb (is_lparen t) && is_rparen t) ts)))%Z.
Proof.
  revert b. induction ts as [|t ts IH]; intros b; cbn [map balance_loop List.filter];
    [f_equal; simpl; lia|].
  destruct (is_lparen t); cbn [negb andb]; [|destruct (is_rparen t)];
    cbn [length]; rewrite IH; f_equal; lia.
Qed.

(** A token is never both parentheses. *)
Lemma rparen_not_lparen t : is_rparen t = true -> is_lparen t = false.
Proof.
  unfold is_rparen, is_lparen. intros Hr. destruct (tok_eqb t lparen) eqn:Hl; [|done].
  pose proof (tok_eqb_trans _ _ _ (eq_trans (tok_eqb_sym rparen t) Hr) Hl) as H.
  discriminate H.
Qed.

Lemma filter_rparen ts :
  List.filter (fun t => negb (is_lparen t) && is_rparen t) ts = List.filter is_rparen ts.
Proof.
  induction ts as [|t ts IH]; [done|]. simpl. rewrite IH.
  destruct (is_rparen t) eqn:Hr; [|by destruct (is_lparen t)].
  by rewrite (rparen_not_lparen t Hr).
Qed.

(** C10 (equivalence): the counting loop of [eval_expr] computes the
    number of ["("] tokens minus the number of [")"] tokens. *)
Theorem balance_counts ts :
  balance (map Some ts) =
    Ret (Z.of_nat (length (List.filter is_lparen ts)) - Z.of_nat (length (List.filter is_rparen ts)))%Z.
Proof. unfold balance. by rewrite balance_loop_count, filter_rparen. Qed.

(** The parse of a balanced stream need not be one form: ["1 2"] gives two. *)
Example parse_two_forms (a b : tok) :
  atom_ok a = true -> atom_ok b = true ->
  parse [Some a; Some b] = Ret [ETok a; ETok b].
Proof. intros Ha Hb. unfold parse. by rewrite parse_loop_atom, parse_loop_atom. Qed.
End Parser.

Arguments expr {_}.

Lemma parse_unparse_witness :
  Forall expr_ok [EList [ETok (sym "+"); ETok (Tok (VInt 1) INT)]] /\
  parse (map Some (flat_map unparse [EList [ETok (sym "+"); ETok (Tok (VInt 1) INT)]])) =
    Ret [EList [ETok (sym "+"); ETok (Tok (VInt 1) INT)]].
Proof.
  assert (H : Forall expr_ok [EList [ETok (sym "+"); ETok (@Tok QFloat (VInt 1) INT)]]).
  { repeat constructor. }
  split; [exact H|]. apply (parse_unparse _ H).
Defined.

Lemma parse_leaves_witness :
  exists es, parse (map Some [lparen; sym "a"; lparen; rparen; rparen]) = Ret es /\
    flat_map leaves es = List.filter atom_ok [lparen; @sym QFloat "a"; lparen; rparen; rparen].
Proof. apply parse_leaves. reflexivity. Defined.
