(* ===== verification/Tables.v ===== *)
(** The interpreter's tables (scheme.py 100-116) and its state.

    [function_table] maps the four operator symbols to the builtins,
    [macro_table] the three special-form names to their handlers; both are
    keyed by [Tok] and never written (the one write, in [fun_define]'s
    function branch, raises before it happens).  [constant_table] is keyed
    by Python [str], so a [Tok] lookup never finds [e] or [pi]
    ([constant_table_miss]).  [symbol_table] is the only table the program
    writes; it and the printed messages form the state [state]. *)

From Stdlib Require Import String Ascii ZArith List Bool.
From stdpp Require Import base tactics.
From S2P Require Import Prelude PyNum PyValue Token Parser.
Import ListNotations.

(** The four builtin lambdas of [function_table]. *)
Inductive binop := Add | Sub | Mul | Div.

(** The three handlers of [macro_table]. *)
Inductive macro := MDefine | MLet | MIf.

Section Tables.
Context {PF : PyFloat}.

(** The messages printed on the error paths that return a sentinel, with
    the values their f-strings show. *)
Inductive msg :=
  | MsgInvalidQuote                       (* evaluate: "invalid quote application" *)
  | MsgInvalidType (fst : tok)            (* evaluate: "invalid type {fst=}" *)
  | MsgDefineName (args : list expr)      (* fun_define: "({args=}) invalid name" *)
  | MsgDefineArity (args : list expr)     (* fun_define: "({args=}) Too many arguments ..." *)
  | MsgUnbalanced.                        (* eval_expr: "unbalanced parenthesizes" *)

(** What [evaluate] returns: a token or a list (from [quote] and [if]), a
    builtin function (the value of an operator symbol), [None], or the
    int [-1]. *)
Inductive obj :=
  | OExpr (e : expr)
  | OBuiltin (op : binop)
  | ONone
  | OInt (z : Z).

Definition table := @dict tok obj.

Record state := mkState { symbol_table : table; output : list msg }.

Definition tbl_get (k : tok) (d : table) : option obj := dict_get tok_eqb k d.
Definition tbl_set (k : tok) (v : obj) (d : table) : table := dict_set tok_eqb k v d.

Definition function_table : @dict tok binop :=
  [(sym "+", Add); (sym "-", Sub); (sym "*", Mul); (sym "/", Div)].

Definition macro_table : @dict tok macro :=
  [(sym "define", MDefine); (sym "let", MLet); (sym "if", MIf)].

(** Keys of a Python dict holding both kinds of keys. *)
Inductive pykey := KStr (s : string) | KTok (t : tok).

(** [==] between keys; a [str] and a [Tok] never reach [__eq__] (their
    hashes differ). *)
Definition pykey_eqb (a b : pykey) : bool :=
  match a, b with
  | KStr s, KStr s' => String.eqb s s'
  | KTok t, KTok t' => tok_eqb t t'
  | _, _ => false
  end.

Definition constant_table : @dict pykey tok :=
  [(KStr "e", Tok (VFlo f_e) INT); (KStr "pi", Tok (VFlo f_pi) INT)].

Definition init_state : state := mkState [] [].

Lemma tbl_get_set_eq k k' v d : tok_eqb k' k = true -> tbl_get k' (tbl_set k v d) = Some v.
Proof. apply dict_get_set_eq; [apply tok_eqb_sym|apply tok_eqb_trans]. Qed.

Lemma tbl_get_set_ne k k' v d : tok_eqb k' k = false -> tbl_get k' (tbl_set k v d) = tbl_get k' d.
Proof. apply dict_get_set_ne; [apply tok_eqb_sym|apply tok_eqb_trans]. Qed.

(** A binding, once made, stays made under any later assignment. *)
Lemma tbl_set_keeps k v d k' : tbl_get k' d <> None -> tbl_get k' (tbl_set k v d) <> None.
Proof.
  destruct (tok_eqb k' k) eqn:E.
  - by rewrite tbl_get_set_eq.
  - by rewrite tbl_get_set_ne.
Qed.

(** [constant_table] is never hit by a token. *)
Lemma constant_table_miss t : dict_get pykey_eqb (KTok t) constant_table = None.
Proof. reflexivity. Qed.
End Tables.

Arguments msg {_}.
Arguments obj {_}.
Arguments state {_}.
Arguments table {_}.
#[export] Hint Resolve tbl_get_set_eq tbl_set_keeps : py.
