(* ===== verification/Eval.v ===== *)
(** The evaluator: [evaluate] (scheme.py 156-223), the builtins of
    [function_table] (scheme.py 106-111) with [toklv] (scheme.py 79-81), the
    special forms [std_let], [std_if_then_else], [fun_define]
    (scheme.py 283-351) and the entry point [eval_expr] (scheme.py 236-253).

    [evaluate] is written as in the source: a token is looked up, a list of
    one element is unwrapped, and a longer list dispatches on its head.  The
    list case is [eval_form], which the special forms call back into; the
    recursion is structural on the tree (the body of [let] is a sub-list of
    the form), so [evaluate] is total without fuel.  The state is the
    symbol table and the printed messages; every write the source makes
    before an exception is kept.

    Section [Sizes] gives the size measure for induction over the evaluator
    ([expr_size_ind]); section [Grows] proves the invariant: evaluating a
    line never removes a binding or a printed message ([eval_expr_grows]).
    Section [Forms] states the behaviour of each kind of form: atoms and the
    ordered resolvers, builtins as left folds of the Python operators,
    [quote], [if], [let] (sequential, leaking into the global table),
    [define], unknown heads, unbalanced input, and input holding a word
    [determine] maps to [None]. *)

From Stdlib Require Import String Ascii ZArith List Bool Lia Wf_nat.
From stdpp Require Import base tactics list.
From S2P Require Import Prelude PyNum PyValue Token Lexer Parser Tables.
Import ListNotations.

Section Eval.
Context {PF : PyFloat}.

#[local] Abbreviation M := (PyM state).

(** [print(...)] of an error message. *)
Definition print (m : msg) : M unit :=
  pmodify (fun s => mkState (symbol_table s) (output s ++ [m])).

(** [symbol_table[k] = v] *)
Definition set_symbol (k : tok) (v : obj) : M unit :=
  pmodify (fun s => mkState (tbl_set k v (symbol_table s)) (output s)).

(** [tokv] applied to an evaluated argument: anything but a token has no
    attribute [kind]. *)
Definition obj_tokv (o : obj) : outcome pyval :=
  match o with
  | OExpr (ETok t) => tokv t
  | _ => Raise AttributeError
  end.

(** [toklv(tokens)] *)
Definition toklv (args : list obj) : outcome (list pyval) := omap obj_tokv args.

Definition binop_fun (op : binop) : pyval -> pyval -> outcome pyval :=
  match op with
  | Add => py_add
  | Sub => py_sub
  | Mul => py_mul
  | Div => py_truediv
  end.

(** [lambda args: Tok(reduce(lambda a, b: a OP b, toklv(args)), FLO)] *)
Definition apply_builtin (op : binop) (args : list obj) : outcome obj :=
  obind (toklv args) (fun vs =>
    obind (py_reduce (binop_fun op) vs) (fun v => Ret (OExpr (ETok (Tok v FLO))))).

(** [evaluate] on a token: numbers are returned; otherwise the scope, the
    symbol table, the function table and the constant table are tried in
    that order, and an unbound token is returned unchanged. *)
Definition eval_tok (t : tok) (scope : table) : M obj :=
  match kind t with
  | INT | FLO => pret (OExpr (ETok t))
  | _ =>
      st <- pget ;;
      match tbl_get t scope with
      | Some v => pret v
      | None =>
          match tbl_get t (symbol_table st) with
          | Some v => pret v
          | None =>
              match dict_get tok_eqb t function_table with
              | Some op => pret (OBuiltin op)
              | None =>
                  match dict_get pykey_eqb (KTok t) constant_table with
                  | Some c => pret (OExpr (ETok c))
                  | None => pret (OExpr (ETok t))
                  end
              end
          end
      end
  end.

(** ** Special forms, given the evaluator they call back into *)
Section SpecialForms.
Variable evaluate : expr -> table -> M obj.
Variable eval_list : list expr -> table -> M obj.

(** [for decl in declrs: symbol_table[decl[0]] = evaluate(decl[1])]:
    the value is evaluated first (with the default, empty scope), then
    the key is read and hashed. *)
Fixpoint let_bindings (declrs : list expr) : M unit :=
  match declrs with
  | [] => pret tt
  | decl :: rest =>
      match decl with
      | ETok _ => praise TypeError
      | EList (name :: value :: _) =>
          v <- evaluate value [] ;;
          match name with
          | ETok k => set_symbol k v ;; let_bindings rest
          | EList _ => praise TypeError
          end
      | EList _ => praise IndexError
      end
  end.

Definition std_let (args : list expr) (scope : table) : M obj :=
  match args with
  | [] => praise IndexError
  | declrs :: body =>
      match declrs with
      | ETok _ => praise TypeError
      | EList ds => let_bindings ds ;; eval_list body scope
      end
  end.

(** [(if a b c)]: the predicate is compared, unevaluated, with [nil];
    the chosen branch is returned unevaluated. *)
Definition std_if_then_else (args : list expr) : M obj :=
  match args with
  | [pred; tok_Then; tok_Else] =>
      match pred with
      | ETok p => if tok_eqb p tok_NIL then pret (OExpr tok_Else) else pret (OExpr tok_Then)
      | EList _ => praise AttributeError
      end
  | _ => pret ONone
  end.

(** [(define name body)]: the unevaluated body is stored. *)
Definition fun_define (args : list expr) : M obj :=
  match args with
  | [name; body] =>
      match name with
      | ETok k =>
          match body with
          | EList _ => praise AttributeError
          | ETok b =>
              match kind b with
              | SYM => set_symbol k (OExpr body) ;; pret (OExpr body)
              | FUN => praise TypeError
              | _ => set_symbol k (OExpr body) ;; pret (OExpr body)
              end
          end
      | EList _ => print (MsgDefineName args) ;; pret ONone
      end
  | _ => print (MsgDefineArity args) ;; pret ONone
  end.

End SpecialForms.

Section Form.
Variable evaluate : expr -> table -> M obj.

(** [evaluate] on a list: [[x]] is unwrapped; otherwise the head picks a
    builtin (arguments evaluated left to right), a special form
    (arguments unevaluated), a callable token, or [quote]/[q]. *)
Fixpoint eval_form (l : list expr) (scope : table) : M obj :=
  match l with
  | [] => praise IndexError
  | [x] => evaluate x scope
  | fst :: rest =>
      match fst with
      | EList _ => praise TypeError
      | ETok f =>
          match dict_get tok_eqb f function_table with
          | Some op =>
              args <- mapM (fun x => evaluate x scope) rest ;;
              plift (apply_builtin op args)
          | None =>
              match dict_get tok_eqb f macro_table with
              | Some MDefine => fun_define rest
              | Some MLet => std_let evaluate eval_form rest scope
              | Some MIf => std_if_then_else rest
              | None =>
                  match kind f with
                  | FUN => _ <- mapM (fun x => evaluate x scope) rest ;; praise TypeError
                  | SYM =>
                      v <- plift (tokv f) ;;
                      if py_eqb v (VStr "quote") || py_eqb v (VStr "q")
                      then pret (OExpr (EList l))
                      else print MsgInvalidQuote ;; pret ONone
                  | _ => print (MsgInvalidType f) ;; pret (OInt (-1))
                  end
              end
          end
      end
  end.
End Form.

Fixpoint evaluate (e : expr) (scope : table) : M obj :=
  match e with
  | ETok t => eval_tok t scope
  | EList l => eval_form evaluate l scope
  end.

(** [eval_expr]: tokenize, count parentheses, parse, evaluate the first
    form with the (empty) default scope. *)
Definition eval_expr (expression : string) : M obj :=
  let tokens := tokenize expression in
  match balance tokens with
  | Raise e => praise e
  | Ret b =>
      if negb (Z.eqb b 0) then print MsgUnbalanced ;; pret ONone
      else match parse tokens with
           | Raise e => praise e
           | Ret [] => praise IndexError
           | Ret (e :: _) => evaluate e []
           end
  end.
End Eval.

(** * Sizes of trees, for induction over the evaluator *)

Section Sizes.
Context {PF : PyFloat}.

Fixpoint esize (e : expr) : nat :=
  match e with
  | ETok _ => 1
  | EList l => S (list_sum (map esize l))
  end.

Definition lsize (l : list expr) : nat := list_sum (map esize l).

Lemma lsize_cons x l : lsize (x :: l) = esize x + lsize l.
Proof. reflexivity. Qed.

Lemma esize_list l : esize (EList l) = S (lsize l).
Proof. reflexivity. Qed.

Lemma lsize_in x l : In x l -> esize x <= lsize l.
Proof.
  induction l as [|y l IH]; [done|]. rewrite lsize_cons. intros [->|Hin]; [lia|].
  specialize (IH Hin). lia.
Qed.

Lemma lsize_ind (Q : list expr -> Prop) :
  (forall l, (forall l', lsize l' < lsize l -> Q l') -> Q l) -> forall l, Q l.
Proof.
  intros H l. remember (lsize l) as n eqn:En. revert l En.
  induction n as [n IH] using lt_wf_ind. intros l ->. apply H.
  intros l' Hl'. by apply (IH (lsize l')).
Qed.

Lemma expr_size_ind (P : expr -> Prop) :
  (forall t, P (ETok t)) ->
  (forall l, (forall e, esize e <= lsize l -> P e) -> P (EList l)) ->
  forall e, P e.
Proof.
  intros HT HL e. remember (esize e) as n eqn:En. revert e En.
  induction n as [n IH] using lt_wf_ind. intros [t|l] ->; [apply HT|].
  apply HL. intros e He. apply (IH (esize e)); [rewrite esize_list; lia|done].
Qed.
End Sizes.

(** ** The state only grows *)
Section Grows.
Context {PF : PyFloat}.

(** [s'] keeps every binding and every printed message of [s]. *)
Definition grows (s s' : state) : Prop :=
  (forall k, tbl_get k (symbol_table s) <> None -> tbl_get k (symbol_table s') <> None) /\
  prefix (output s) (output s').

#[export] Instance grows_preorder : PreOrder grows.
Proof.
  split.
  - intros s. split; [done|reflexivity].
  - intros s1 s2 s3 [H1 P1] [H2 P2]. split; [auto|by transitivity (output s2)].
Qed.

Lemma print_grows m : preserves grows (print m).
Proof. apply preserves_pmodify. intros s. split; [done|]. by apply prefix_app_r. Qed.

Lemma set_symbol_grows k v : preserves grows (set_symbol k v).
Proof. apply preserves_pmodify. intros s. split; [|done]. intros k'. apply tbl_set_keeps. Qed.

#[local] Hint Resolve print_grows set_symbol_grows : py.

Ltac grows_tac :=
  repeat first
    [ solve [apply preserves_pret; exact _] | solve [pdone]
    | solve [apply preserves_plift; exact _] | solve [apply preserves_pget; exact _]
    | apply print_grows | apply set_symbol_grows
    | pbind; [|intros ?]
    | progress case_match ].

Lemma eval_tok_grows t scope : preserves grows (eval_tok t scope).
Proof. unfold eval_tok. grows_tac. Qed.

Lemma fun_define_grows args : preserves grows (fun_define args).
Proof. unfold fun_define. grows_tac. Qed.

Lemma if_grows args : preserves grows (std_if_then_else args).
Proof. unfold std_if_then_else. grows_tac. Qed.

Lemma let_bindings_grows ev ds :
  (forall e scope, esize e < lsize ds -> preserves grows (ev e scope)) ->
  preserves grows (let_bindings ev ds).
Proof.
  induction ds as [|d ds IH]; intros Hev; simpl; [pdone|].
  destruct d as [t|[|name [|value r]]]; try solve [pdone].
  pbind; [apply Hev; rewrite lsize_cons, esize_list, !lsize_cons; lia|intros v].
  repeat case_match; try solve [pdone].
  pbind; [apply set_symbol_grows|intros _].
  apply IH. intros e sc He. apply Hev. rewrite lsize_cons. lia.
Qed.

Lemma eval_form_grows ev l :
  (forall e scope, esize e <= lsize l -> preserves grows (ev e scope)) ->
  forall scope, preserves grows (eval_form ev l scope).
Proof.
  induction l as [l IH] using lsize_ind. intros Hev scope.
  destruct l as [|x [|y r]]; cbn [eval_form].
  - pdone.
  - apply Hev. rewrite lsize_cons. lia.
  - destruct x as [f|]; [|pdone].
    destruct (dict_get tok_eqb f function_table) as [op|].
    { pbind; [|intros; pdone].
      pmapM. intros e He. apply Hev, lsize_in. by right. }
    destruct (dict_get tok_eqb f macro_table) as [[| |]|].
    + apply fun_define_grows.
    + unfold std_let. destruct y as [|ds]; [pdone|].
      pbind.
      * apply let_bindings_grows. intros e sc He. apply Hev.
        rewrite !lsize_cons, esize_list. lia.
      * intros _. apply IH; [rewrite !lsize_cons, esize_list; lia|].
        intros e sc He. apply Hev. rewrite !lsize_cons. lia.
    + apply if_grows.
    + destruct (kind f); try solve [grows_tac].
      pbind; [|intros; pdone]. pmapM. intros e He. apply Hev, lsize_in. by right.
Qed.

Lemma evaluate_grows e scope : preserves grows (evaluate e scope).
Proof.
  revert scope. induction e as [t|l IH] using expr_size_ind; intros scope; simpl.
  - apply eval_tok_grows.
  - apply eval_form_grows. intros e sc He. by apply IH.
Qed.

(** C1 (invariant): evaluating any input line never removes a binding of
    the symbol table nor a printed message, whether it returns or raises;
    in particular a binding made by [let] or [define] survives every later
    evaluation. *)
Theorem eval_expr_grows text : preserves grows (eval_expr text).
Proof.
  unfold eval_expr. destruct (balance _); [|pdone].
  destruct (negb _); [pbind; [apply print_grows|intros _; pdone]|].
  destruct (parse _) as [[|e ?]|]; [pdone|apply evaluate_grows|pdone].
Qed.
End Grows.


(** * Functional behaviour of [evaluate], form by form *)

Open Scope string_scope.

Section Forms.
Context {PF : PyFloat}.

(** Compute the table lookups of a concrete head symbol. *)
Ltac head_lookup :=
  repeat match goal with
  | |- context [dict_get tok_eqb (sym ?c) ?tbl] =>
      let v := eval vm_compute in (dict_get tok_eqb (sym c) tbl) in
      change (dict_get tok_eqb (sym c) tbl) with v
  end; cbn iota.

(** ** Atoms *)

(** The lookups of [evaluate] as an ordered list of resolvers. *)
Definition resolvers (scope st : table) : list (tok -> option obj) :=
  [ (fun t => tbl_get t scope);
    (fun t => tbl_get t st);
    (fun t => option_map OBuiltin (dict_get tok_eqb t function_table));
    (fun t => option_map (fun c => OExpr (ETok c)) (dict_get pykey_eqb (KTok t) constant_table)) ].

Fixpoint first_hit (rs : list (tok -> option obj)) (t : tok) : option obj :=
  match rs with
  | [] => None
  | r :: rs' => match r t with Some v => Some v | None => first_hit rs' t end
  end.

(** The value of an atom: numbers are self-evaluating; otherwise the first
    resolver that knows the token, else the token itself. *)
Definition atom_value (scope st : table) (t : tok) : obj :=
  match kind t with
  | INT | FLO => OExpr (ETok t)
  | _ => match first_hit (resolvers scope st) t with
         | Some v => v
         | None => OExpr (ETok t)
         end
  end.

(** The lookups of the token branch, as the ordered resolvers. *)
Lemma eval_tok_resolve t scope s :
  eval_tok t scope s = (s, Ret (atom_value scope (symbol_table s) t)).
Proof.
  unfold eval_tok, atom_value, resolvers. destruct (kind t); try done.
  all: unfold pbind, pget; cbn [first_hit option_map].
  all: destruct (tbl_get t scope); try done.
  all: destruct (tbl_get t (symbol_table s)); try done.
  all: by destruct (dict_get tok_eqb t function_table).
Qed.

(** C12 (refinement): evaluating a token, bare or parenthesised alone,
    reads the state without changing it and returns its value under the
    ordered resolvers (scope, symbol table, function table, constant
    table; numbers self-evaluate, an unbound token is returned). *)
Theorem eval_atom t scope s :
  evaluate (ETok t) scope s = (s, Ret (atom_value scope (symbol_table s) t)) /\
  evaluate (EList [ETok t]) scope s = (s, Ret (atom_value scope (symbol_table s) t)).
Proof. split; apply eval_tok_resolve. Qed.

(** C28 (code bug): [e] and [pi] are never read from [constant_table]:
    when unbound they evaluate to the symbol itself. *)
Theorem eval_constant_name c s :
  c = "e" \/ c = "pi" -> tbl_get (sym c) (symbol_table s) = None ->
  evaluate (ETok (sym c)) [] s = (s, Ret (OExpr (ETok (sym c)))).
Proof.
  intros Hc Hs. cbn [evaluate]. rewrite eval_tok_resolve. unfold atom_value. simpl. rewrite Hs.
  by destruct Hc as [->| ->].
Qed.

(** ** Builtins *)

Lemma apply_builtin_float op args o :
  apply_builtin op args = Ret o -> exists v, o = OExpr (ETok (Tok v FLO)).
Proof.
  unfold apply_builtin. destruct (toklv args); [|done]. simpl.
  destruct (py_reduce _ _); [|done]. simpl. intros [= <-]. by eexists.
Qed.

(** C27: a successful application of a builtin ([+ - * /]) to at least
    one argument yields a token of kind FLO. *)
Theorem builtin_result_float f op rest scope s s' o :
  dict_get tok_eqb f function_table = Some op -> rest <> [] ->
  evaluate (EList (ETok f :: rest)) scope s = (s', Ret o) ->
  exists v, o = OExpr (ETok (Tok v FLO)).
Proof.
  intros Hf Hr. destruct rest as [|a r]; [done|]. cbn [evaluate eval_form]. rewrite Hf.
  unfold pbind, plift. destruct (mapM _ _ s) as [s1 [args|e]]; [|done].
  destruct (apply_builtin op args) eqn:E; intros [= _ <-].
  by apply apply_builtin_float in E.
Qed.

(** A numeral as the lexer produces it, and its Python value. *)
Definition numeral_val (e : expr) : option pyval :=
  match e with
  | ETok (Tok (VInt z) INT) => Some (VInt z)
  | ETok (Tok (VFlo f) FLO) => Some (VFlo f)
  | _ => None
  end.

Lemma numeral_eval e v scope s :
  numeral_val e = Some v -> evaluate e scope s = (s, Ret (OExpr e)).
Proof. destruct e as [[[z|f|str] []]|]; simpl; intros H; by simplify_eq. Qed.

Lemma numeral_tokv e v : numeral_val e = Some v -> obj_tokv (OExpr e) = Ret v.
Proof. destruct e as [[[z|f|str] []]|]; simpl; intros H; by simplify_eq. Qed.

Lemma numerals_mapM rest vs scope s :
  Forall2 (fun e v => numeral_val e = Some v) rest vs ->
  mapM (fun x => evaluate x scope) rest s = (s, Ret (map OExpr rest)) /\
  toklv (map OExpr rest) = Ret vs.
Proof.
  induction 1 as [|e v rest vs Hv _ [IHm IHt]]; [done|]. simpl.
  unfold pbind at 1. rewrite (numeral_eval e v scope s Hv).
  unfold pbind. rewrite IHm. split; [done|].
  unfold toklv in *. cbn [map omap]. rewrite (numeral_tokv e v Hv). simpl. by rewrite IHt.
Qed.

(** C3: on numerals, a builtin is the left fold of its Python operator
    over the argument values ([functools.reduce]); the state is unchanged
    and an exception of the operator (e.g. ZeroDivisionError) is the
    result. *)
Theorem builtin_folds_left f op rest vs scope s :
  dict_get tok_eqb f function_table = Some op -> rest <> [] ->
  Forall2 (fun e v => numeral_val e = Some v) rest vs ->
  evaluate (EList (ETok f :: rest)) scope s =
    (s, obind (py_reduce (binop_fun op) vs) (fun v => Ret (OExpr (ETok (Tok v FLO))))).
Proof.
  intros Hf Hr Hn. destruct (numerals_mapM rest vs scope s Hn) as [Hm Ht].
  destruct rest as [|a r]; [done|]. cbn [evaluate eval_form]. rewrite Hf.
  unfold pbind. rewrite Hm. unfold plift, apply_builtin. by rewrite Ht.
Qed.

Definition int_lit (z : Z) : expr := ETok (Tok (VInt z) INT).

(** ** [quote] and [if] *)

(** C4 (spec divergence): [(quote x ...)] and [(q x ...)] return the
    whole form, the head symbol included, unevaluated and without
    touching the state. *)
Theorem quote_whole_form q rest scope s :
  q = "quote" \/ q = "q" -> rest <> [] ->
  evaluate (EList (ETok (sym q) :: rest)) scope s = (s, Ret (OExpr (EList (ETok (sym q) :: rest)))).
Proof. intros [-> | ->] Hr; (destruct rest as [|a r]; [done|]); reflexivity. Qed.

(** C22: [(if p a b)] compares the unevaluated predicate token with [nil]
    and returns the chosen branch unevaluated; the state is unchanged. *)
Theorem if_returns_branch p thn els scope s :
  evaluate (EList [ETok (sym "if"); ETok p; thn; els]) scope s =
  (s, Ret (OExpr (if tok_eqb p tok_NIL then els else thn))).
Proof. cbn [evaluate eval_form]. simpl. by destruct (tok_eqb p tok_NIL). Qed.

(** A list as predicate reaches [Tok.__eq__] with a list: AttributeError. *)
Lemma if_list_pred_raises l thn els scope s :
  evaluate (EList [ETok (sym "if"); EList l; thn; els]) scope s = (s, Raise AttributeError).
Proof. reflexivity. Qed.

(** ** [let] and [define] *)

Lemma numeral_tok_eval n scope s :
  kind n = INT \/ kind n = FLO -> evaluate (ETok n) scope s = (s, Ret (OExpr (ETok n))).
Proof. intros Hn. simpl. unfold eval_tok. by destruct Hn as [-> | ->]. Qed.

Lemma tbl_get_set_sym x v d : tbl_get (sym x) (tbl_set (sym x) v d) = Some v.
Proof. apply tbl_get_set_eq, tok_eqb_sym_refl. Qed.

(** A symbol bound in the global table evaluates, with the default empty
    scope, to its binding. *)
Lemma eval_tok_bound c v s :
  tbl_get (sym c) (symbol_table s) = Some v -> eval_tok (sym c) [] s = (s, Ret v).
Proof.
  intros H. pose proof (eval_tok_resolve (sym c) [] s) as E.
  cbn [evaluate atom_value resolvers first_hit sym kind tbl_get dict_get] in E. by rewrite H in E.
Qed.

(** C2 (spec divergence): [let] binds sequentially into the global
    symbol table: the second binding [(y x)] sees the first binding of
    [x], and both bindings remain in the table after the form. *)
Theorem let_sequential x y n s :
  kind n = INT \/ kind n = FLO ->
  evaluate (EList [ETok (sym "let");
                   EList [EList [ETok (sym x); ETok n]; EList [ETok (sym y); ETok (sym x)]];
                   ETok (sym y)]) [] s =
  (mkState (tbl_set (sym y) (OExpr (ETok n)) (tbl_set (sym x) (OExpr (ETok n)) (symbol_table s)))
           (output s),
   Ret (OExpr (ETok n))).
Proof.
  intros Hn. cbn [evaluate eval_form]. head_lookup. unfold std_let. cbn [let_bindings].
  unfold pbind. rewrite numeral_tok_eval by done. simpl.
  rewrite (eval_tok_bound x (OExpr (ETok n))) by apply tbl_get_set_sym. simpl.
  by rewrite (eval_tok_bound y (OExpr (ETok n))) by apply tbl_get_set_sym.
Qed.

(** C21 (invariant, baseline leak): the binding made by
    [(let ((x n)) body...)] is still in the global table after the form,
    whatever the body does, including raising. *)
Theorem let_binding_survives x n body scope s s' r :
  kind n = INT \/ kind n = FLO ->
  evaluate (EList (ETok (sym "let") :: EList [EList [ETok (sym x); ETok n]] :: body)) scope s
    = (s', r) ->
  tbl_get (sym x) (symbol_table s') <> None.
Proof.
  intros Hn. cbn [evaluate eval_form]. head_lookup. unfold std_let. cbn [let_bindings].
  unfold pbind at 1. unfold pbind at 1. rewrite numeral_tok_eval by done. simpl.
  intros Hev. destruct (eval_form_grows evaluate body
                          (fun e sc _ => evaluate_grows e sc) scope _ _ _ Hev) as [Hk _].
  apply Hk. simpl. by rewrite tbl_get_set_sym.
Qed.

(** C23: [(define x b)] with a token body stores the body, unevaluated,
    under [x] and returns it; a list body raises AttributeError (the code
    reads [body.kind]) and writes nothing. *)
Theorem define_stores x b scope s :
  kind b <> FUN ->
  evaluate (EList [ETok (sym "define"); ETok (sym x); ETok b]) scope s =
    (mkState (tbl_set (sym x) (OExpr (ETok b)) (symbol_table s)) (output s), Ret (OExpr (ETok b))) /\
  (forall l, evaluate (EList [ETok (sym "define"); ETok (sym x); EList l]) scope s =
             (s, Raise AttributeError)).
Proof.
  intros Hb. split; [|reflexivity].
  cbn [evaluate eval_form]. head_lookup. unfold fun_define. by destruct (kind b).
Qed.

(** ** Heads that name nothing *)

Definition reserved : list string := ["+"; "-"; "*"; "/"; "define"; "let"; "if"; "quote"; "q"].

Lemma sym_lookup_none g (tbl : list (tok * binop)) :
  Forall (fun kv => exists c, kv.1 = sym c /\ c <> g) tbl -> dict_get tok_eqb (sym g) tbl = None.
Proof.
  induction 1 as [|[k v] tbl (c & Hk & Hc) _ IH]; [done|]. simpl in *. subst k.
  destruct (tok_eqb (sym g) (sym c)) eqn:E; [|done].
  apply tok_eqb_sym_iff in E. congruence.
Qed.

Lemma sym_lookup_none_macro g (tbl : list (tok * macro)) :
  Forall (fun kv => exists c, kv.1 = sym c /\ c <> g) tbl -> dict_get tok_eqb (sym g) tbl = None.
Proof.
  induction 1 as [|[k v] tbl (c & Hk & Hc) _ IH]; [done|]. simpl in *. subst k.
  destruct (tok_eqb (sym g) (sym c)) eqn:E; [|done].
  apply tok_eqb_sym_iff in E. congruence.
Qed.

(** C24: a form whose head symbol is neither a builtin, a special form nor
    [quote]/[q] prints an error and returns [None] -- even when the head
    is bound in the symbol table, which heads never consult. *)
Theorem unknown_head_none g rest scope s :
  ~ In g reserved -> rest <> [] ->
  evaluate (EList (ETok (sym g) :: rest)) scope s =
    (mkState (symbol_table s) (output s ++ [MsgInvalidQuote]), Ret ONone).
Proof.
  intros Hg Hr. destruct rest as [|a r]; [done|]. cbn [evaluate eval_form].
  assert (Hne : forall c, In c reserved -> c <> g) by (intros c Hc ->; contradiction).
  rewrite sym_lookup_none by
    (unfold function_table, macro_table;
     repeat (apply List.Forall_cons; [eexists; split; [reflexivity|apply Hne; simpl; tauto]|]);
     apply List.Forall_nil).
  rewrite sym_lookup_none_macro by
    (unfold function_table, macro_table;
     repeat (apply List.Forall_cons; [eexists; split; [reflexivity|apply Hne; simpl; tauto]|]);
     apply List.Forall_nil).
  simpl. unfold pbind, plift. simpl.
  destruct (String.eqb_spec g "quote") as [->|Hq]; [destruct Hg; simpl; tauto|].
  destruct (String.eqb_spec g "q") as [->|Hq']; [destruct Hg; simpl; tauto|].
  done.
Qed.

(** A form headed by a number prints an error and returns the int [-1];
    the empty form raises IndexError; a list head raises TypeError. *)
Lemma numeric_head_minus_one n rest scope s :
  kind n = INT \/ kind n = FLO -> rest <> [] ->
  evaluate (EList (ETok n :: rest)) scope s =
    (mkState (symbol_table s) (output s ++ [MsgInvalidType n]), Ret (OInt (-1))).
Proof.
  intros Hn Hr. destruct rest as [|a r]; [done|]. cbn [evaluate eval_form].
  assert (Hk : forall c, tok_eqb n (sym c) = false)
    by (intros c; apply tok_eqb_kind; simpl; destruct Hn as [-> | ->]; done).
  simpl. rewrite !Hk. by destruct Hn as [-> | ->].
Qed.

Lemma empty_and_list_heads l a rest scope s :
  evaluate (EList []) scope s = (s, Raise IndexError) /\
  evaluate (EList (EList l :: a :: rest)) scope s = (s, Raise TypeError).
Proof. split; reflexivity. Qed.

(** ** The entry point *)

(** C25: when the parenthesis count is not zero, [eval_expr] prints the
    error and returns [None] without parsing or evaluating: the symbol
    table is unchanged. *)
Theorem eval_expr_unbalanced text s b :
  balance (tokenize text) = Ret b -> b <> 0%Z ->
  eval_expr text s = (mkState (symbol_table s) (output s ++ [MsgUnbalanced]), Ret ONone).
Proof.
  intros Hb Hne. unfold eval_expr. rewrite Hb.
  destruct (Z.eqb_spec b 0); [done|]. reflexivity.
Qed.

(** The count meets a [None] token before it ends, and [Tok.__eq__]
    raises. *)
Lemma balance_loop_none ts b : In None ts -> balance_loop ts b = Raise AttributeError.
Proof.
  revert b. induction ts as [|[t|] ts IH]; intros b Hin; [done| |done].
  destruct Hin as [Heq|Hin]; [done|]. cbn [balance_loop].
  destruct (is_lparen t); [|destruct (is_rparen t)]; by apply IH.
Qed.

(** C16 (error): a line with a word that [determine] maps to [None] --
    a word holding a dot that is not [digits.digits], such as [a.b] or
    the [.] the regex leaves after ["1."] -- makes [eval_expr] raise
    AttributeError, parenthesised or not, with the state untouched: the
    count of the parentheses compares that [None] with [Tok("(", SYM)]. *)
Theorem eval_expr_dotted_word text s w :
  In w (findall (list_ascii_of_string text)) -> determine (string_of_list_ascii w) = None ->
  eval_expr text s = (s, Raise AttributeError).
Proof.
  intros Hin Hd. unfold eval_expr, balance.
  rewrite balance_loop_none; [done|]. unfold tokenize.
  rewrite <- Hd. by apply (in_map (fun w => determine (string_of_list_ascii w))).
Qed.

(** C26 (error): a special form with the wrong number of arguments is not
    an exception: [(if ...)] without exactly three arguments returns [None]
    silently, state untouched, and [(define ...)] without exactly two
    prints its arity error and returns [None]. *)
Theorem bad_arity_forms args scope s :
  args <> [] ->
  (length args <> 3 -> evaluate (EList (ETok (sym "if") :: args)) scope s = (s, Ret ONone)) /\
  (length args <> 2 -> evaluate (EList (ETok (sym "define") :: args)) scope s =
     (mkState (symbol_table s) (output s ++ [MsgDefineArity args]), Ret ONone)).
Proof.
  intros Hne. destruct args as [|a [|b [|c [|d r]]]]; [done|..];
    cbn [evaluate eval_form]; head_lookup; cbn [length]; split; intros Hl;
    try lia; reflexivity.
Qed.

End Forms.

(** ** Witnesses, with exact arithmetic *)

Lemma eval_constant_name_witness :
  evaluate (ETok (sym "e")) [] init_state = (init_state, Ret (OExpr (ETok (sym "e")))).
Proof. apply eval_constant_name; [by left|reflexivity]. Defined.

Lemma builtin_result_float_witness :
  evaluate (EList [ETok (sym "+"); ETok (Tok (VInt 1) INT); ETok (Tok (VInt 2) INT)]) [] init_state
    = (init_state, Ret (OExpr (ETok (Tok (VInt 3) FLO)))) /\
  exists v, OExpr (ETok (Tok (VInt 3) FLO)) = OExpr (ETok (Tok v FLO)).
Proof.
  split; [reflexivity|].
  apply (builtin_result_float (sym "+") Add
           [ETok (Tok (VInt 1) INT); ETok (Tok (VInt 2) INT)] [] init_state init_state);
    [reflexivity|done|reflexivity].
Defined.

Lemma builtin_folds_left_witness :
  evaluate (EList [ETok (sym "/"); int_lit 1; int_lit 0]) [] init_state =
    (init_state, obind (py_reduce py_truediv [VInt 1; VInt 0])
                       (fun v => Ret (OExpr (ETok (Tok v FLO))))).
Proof.
  apply (builtin_folds_left (sym "/") Div); [reflexivity|done|].
  repeat constructor.
Defined.

Lemma quote_whole_form_witness :
  evaluate (EList [ETok (sym "quote"); EList [ETok (sym "+"); int_lit 1; int_lit 2]]) [] init_state
  = (init_state, Ret (OExpr (EList [ETok (sym "quote"); EList [ETok (sym "+"); int_lit 1; int_lit 2]]))).
Proof. apply quote_whole_form; [by left|done]. Defined.

Lemma let_sequential_witness :
  evaluate (EList [ETok (sym "let");
                   EList [EList [ETok (sym "a"); int_lit 1]; EList [ETok (sym "b"); ETok (sym "a")]];
                   ETok (sym "b")]) [] init_state =
  (mkState (tbl_set (sym "b") (OExpr (int_lit 1)) (tbl_set (sym "a") (OExpr (int_lit 1)) []))
           [], Ret (OExpr (int_lit 1))).
Proof. apply (let_sequential "a" "b" (Tok (VInt 1) INT) init_state). by left. Defined.

Lemma let_binding_survives_witness :
  evaluate (EList [ETok (sym "let"); EList [EList [ETok (sym "a"); int_lit 10]]]) [] init_state
    = (mkState (tbl_set (sym "a") (OExpr (int_lit 10)) []) [], Raise IndexError) /\
  tbl_get (sym "a") (tbl_set (sym "a") (OExpr (int_lit 10)) []) <> None.
Proof.
  split; [reflexivity|].
  apply (let_binding_survives "a" (Tok (VInt 10) INT) [] [] init_state
           (mkState (tbl_set (sym "a") (OExpr (int_lit 10)) []) []) (Raise IndexError));
    [by left|reflexivity].
Defined.

Lemma define_stores_witness :
  evaluate (EList [ETok (sym "define"); ETok (sym "z"); int_lit 5]) [] init_state =
    (mkState (tbl_set (sym "z") (OExpr (int_lit 5)) []) [], Ret (OExpr (int_lit 5))) /\
  (forall l, evaluate (EList [ETok (sym "define"); ETok (sym "z"); EList l]) [] init_state =
             (init_state, Raise AttributeError)).
Proof. apply (define_stores "z" (Tok (VInt 5) INT)). done. Defined.

Lemma unknown_head_none_witness :
  evaluate (EList [ETok (sym "f"); int_lit 1]) [] init_state =
    (mkState [] [MsgInvalidQuote], Ret ONone).
Proof. apply (unknown_head_none "f" [int_lit 1] [] init_state); [simpl; intuition discriminate|done]. Defined.

Lemma eval_expr_unbalanced_witness :
  balance (tokenize "(+ 1 2") = Ret 1%Z /\
  eval_expr "(+ 1 2" init_state = (mkState [] [MsgUnbalanced], Ret ONone).
Proof. split; [reflexivity|]. apply (eval_expr_unbalanced "(+ 1 2" init_state 1%Z); [reflexivity|lia]. Defined.

Lemma eval_expr_dotted_word_witness :
  In ["a"%char; "."%char; "b"%char] (findall (list_ascii_of_string "(+ 1 a.b)")) /\
  determine (string_of_list_ascii ["a"%char; "."%char; "b"%char]) = None /\
  eval_expr "(+ 1 a.b)" init_state = (init_state, Raise AttributeError).
Proof.
  assert (Hin : In ["a"%char; "."%char; "b"%char] (findall (list_ascii_of_string "(+ 1 a.b)"))).
  { vm_compute. tauto. }
  assert (Hd : @determine QFloat (string_of_list_ascii ["a"%char; "."%char; "b"%char]) = None)
    by reflexivity.
  split; [exact Hin|split; [exact Hd|]].
  exact (eval_expr_dotted_word _ init_state _ Hin Hd).
Defined.

Lemma eval_expr_grows_witness :
  eval_expr "(define a 1)" init_state =
    (mkState (tbl_set (sym "a") (OExpr (ETok (Tok (VInt 1) INT))) []) [],
     Ret (OExpr (ETok (Tok (VInt 1) INT)))) /\
  grows init_state (mkState (tbl_set (sym "a") (OExpr (ETok (Tok (VInt 1) INT))) []) []).
Proof.
  split; [vm_eq|].
  apply (eval_expr_grows "(define a 1)" init_state _ (Ret (OExpr (ETok (Tok (VInt 1) INT))))).
  vm_eq.
Defined.

Lemma bad_arity_forms_witness :
  [int_lit 1] <> [] /\ length [int_lit 1] <> 3 /\ length [int_lit 1] <> 2 /\
  evaluate (EList [ETok (sym "if"); int_lit 1]) [] init_state = (init_state, Ret ONone) /\
  evaluate (EList [ETok (sym "define"); int_lit 1]) [] init_state =
    (mkState [] [MsgDefineArity [int_lit 1]], Ret ONone).
Proof.
  assert (Hne : [int_lit 1] <> []) by discriminate.
  destruct (bad_arity_forms [int_lit 1] [] init_state Hne) as [Hif Hdef].
  split; [exact Hne|split; [simpl; lia|split; [simpl; lia|split]]].
  - apply Hif. simpl. lia.
  - apply Hdef. simpl. lia.
Defined.
