(* ===== verification/Reader.v ===== *)
(** Reading printed text back: the front end of [eval_expr] -- [tokenize]
    (scheme.py 118-124), the parenthesis count (scheme.py 243-247) and
    [parse] (scheme.py 127-153) -- on the text of a tree of words.

    A Lisp text is a tree of words ([sexp]); [print_sexp] writes it with
    every token followed by a space.  The words are numerals (decimal
    digits) and symbols (word characters with no digit and no dot), the
    two kinds [determine] turns into INT and SYM tokens; [sexp_expr] is
    the tree of tokens the text stands for.  The theorem [read_printed]
    shows that the lexer, [determine] and [parse] give back exactly that
    tree, and that [eval_expr] on the text evaluates it: the scan keeps
    each word whole (the number alternative of the regex takes a numeral
    and no part of a symbol), skips the spaces, and the count of the
    parentheses of a printed tree is zero. *)

From Stdlib Require Import String Ascii ZArith List Bool Lia.
From stdpp Require Import base tactics list.
From S2P Require Import Prelude PyNum PyValue Token Lexer Parser Tables Eval.
Import ListNotations.

(** A tree of words. *)
Inductive sexp :=
  | SAtom (w : list ascii)
  | SList (l : list sexp).

Section SexpInd.
Variable P : sexp -> Prop.
Hypothesis HAtom : forall w, P (SAtom w).
Hypothesis HList : forall l, Forall P l -> P (SList l).

Fixpoint sexp_ind' (e : sexp) : P e :=
  match e with
  | SAtom w => HAtom w
  | SList l =>
      HList l ((fix go (l : list sexp) : Forall P l :=
                  match l with
                  | [] => List.Forall_nil P
                  | x :: r => @List.Forall_cons _ P x r (sexp_ind' x) (go r)
                  end) l)
  end.
End SexpInd.

(** A symbol: non-empty, word characters only, no digit and no dot. *)
Definition symbol_word (w : list ascii) : bool :=
  match w with
  | [] => false
  | _ => forallb (fun c => is_word c && negb (is_digit c) && negb (Ascii.eqb c ".")) w
  end.

(** The words a tree may hold: numerals and symbols. *)
Fixpoint sexp_ok (e : sexp) : bool :=
  match e with
  | SAtom w => isnumeric w || symbol_word w
  | SList l => forallb sexp_ok l
  end.

(** The words of the text, one per token. *)
Fixpoint sexp_words (e : sexp) : list (list ascii) :=
  match e with
  | SAtom w => [w]
  | SList l => (["("%char] :: flat_map sexp_words l ++ [[")"%char]])%list
  end.

(** Words separated by spaces. *)
Definition spaced (ws : list (list ascii)) : list ascii := concat (map (fun w => (w ++ [" "%char])%list) ws).

(** The text of a tree: each token followed by a space. *)
Definition print_sexp (e : sexp) : string := string_of_list_ascii (spaced (sexp_words e)).

Section Read.
Context {PF : PyFloat}.

(** The token a word stands for. *)
Definition word_tok (w : list ascii) : tok :=
  if isnumeric w then Tok (VInt (decimal_value w)) INT else sym (string_of_list_ascii w).

Fixpoint sexp_expr (e : sexp) : expr :=
  match e with
  | SAtom w => ETok (word_tok w)
  | SList l => EList (map sexp_expr l)
  end.
End Read.

(** ** The scan of a printed text *)

(** A word the scan takes whole when a space follows it: a parenthesis,
    a numeral or a symbol. *)
Definition lexeme (w : list ascii) : bool :=
  match w with [c] => is_paren c | _ => false end || isnumeric w || symbol_word w.

Lemma spaced_cons w ws : spaced (w :: ws) = (w ++ " "%char :: spaced ws)%list.
Proof. unfold spaced. simpl. by rewrite <- app_assoc. Qed.

Lemma forallb_weaken (f g : ascii -> bool) l :
  (forall c, f c = true -> g c = true) -> forallb f l = true -> forallb g l = true.
Proof.
  intros Hfg. induction l as [|c l IH]; [done|]. simpl.
  intros [Hc Hl]%andb_true_iff. by rewrite Hfg, IH.
Qed.

Lemma span_app p w c r :
  forallb p w = true -> p c = false -> span p (w ++ c :: r)%list = (w, c :: r).
Proof.
  induction w as [|x w IH]; simpl; [by intros _ ->|].
  intros [Hx Hw]%andb_true_iff Hc. by rewrite Hx, IH.
Qed.

Lemma digit_char c : is_digit c = true -> is_paren c = false /\ is_sign c = false.
Proof. destruct c as [[] [] [] [] [] [] [] []]; vm_compute; intuition congruence. Qed.

Lemma word_char c : is_word c = true -> is_paren c = false /\ is_space c = false.
Proof. unfold is_word. by intros [->%negb_true_iff ->%negb_true_iff]%andb_true_iff. Qed.

(** After a run of characters that are neither digits nor dots, and a
    space, the text starts with neither. *)
Lemma head_plain w r :
  forallb (fun c => negb (is_digit c) && negb (Ascii.eqb c ".")) w = true ->
  exists x rest, (w ++ " "%char :: r)%list = x :: rest /\
                 is_digit x = false /\ Ascii.eqb x "." = false.
Proof.
  destruct w as [|x w]; simpl.
  - intros _. by exists " "%char, r.
  - intros [[Hd Hp]%andb_true_iff _]%andb_true_iff. exists x, (w ++ " "%char :: r)%list.
    apply negb_true_iff in Hd, Hp. done.
Qed.

(** The number alternative of the regex matches no prefix of a symbol. *)
Lemma match_number_symbol w r : symbol_word w = true -> match_number (w ++ " "%char :: r)%list = None.
Proof.
  destruct w as [|c cs]; [done|]. intros Hw.
  assert (Hp : forallb (fun c => negb (is_digit c) && negb (Ascii.eqb c ".")) (c :: cs) = true).
  { revert Hw. apply forallb_weaken. intros x Hx.
    apply andb_true_iff in Hx as [Hx Hdot]. apply andb_true_iff in Hx as [_ Hd].
    by rewrite Hd, Hdot. }
  unfold match_number. cbn [app].
  assert (Hl1 : exists sg w', (if is_sign c then ([c], (cs ++ " "%char :: r)%list)
                            else ([], (c :: cs ++ " "%char :: r)%list)) = (sg, (w' ++ " "%char :: r)%list) /\
                forallb (fun c => negb (is_digit c) && negb (Ascii.eqb c ".")) w' = true).
  { destruct (is_sign c); [exists [c], cs|exists [], (c :: cs)]; split; try done.
    simpl in Hp. by apply andb_true_iff in Hp as [_ Hp]. }
  destruct Hl1 as (sg & w' & -> & Hw'). destruct (head_plain w' r Hw') as (x & rest & -> & Hd & Hdot).
  simpl. rewrite Hd. simpl. by rewrite Hdot.
Qed.

(** A space is skipped. *)
Lemma scan_one_space r : scan_one " "%char r = (None, r).
Proof. reflexivity. Qed.

(** A lexeme followed by a space is one run. *)
Lemma scan_one_lexeme w r :
  lexeme w = true ->
  exists c cs, w = c :: cs /\ scan_one c (cs ++ " "%char :: r)%list = (Some w, " "%char :: r).
Proof.
  intros Hl. destruct w as [|c cs]; [done|]. exists c, cs. split; [done|].
  unfold lexeme in Hl. destruct (isnumeric (c :: cs)) eqn:Hn.
  - cbn in Hn. apply andb_true_iff in Hn as [Hc Hcs]. destruct (digit_char c Hc) as [Hp Hs].
    unfold scan_one, match_number. rewrite Hp, Hs. cbn [app].
    pose proof (span_app is_digit (c :: cs) " "%char r ltac:(simpl; by rewrite Hc, Hcs) eq_refl)
      as Hsp. cbn [app] in Hsp. by rewrite Hsp.
  - destruct (symbol_word (c :: cs)) eqn:Hw.
    + assert (Hc : is_word c = true).
      { cbn in Hw. by apply andb_true_iff in Hw as [[[Hc _]%andb_true_iff _]%andb_true_iff _]. }
      destruct (word_char c Hc) as [Hp Hs]. unfold scan_one.
      pose proof (match_number_symbol (c :: cs) r Hw) as Hm. cbn [app] in Hm.
      rewrite Hp, Hm, Hs.
      assert (Hall : forallb is_word (c :: cs) = true).
      { revert Hw. apply forallb_weaken. intros x Hx.
        by apply andb_true_iff in Hx as [[Hx _]%andb_true_iff _]. }
      pose proof (span_app is_word (c :: cs) " "%char r Hall eq_refl) as Hsp.
      cbn [app] in Hsp. by rewrite Hsp.
    + rewrite !orb_false_r in Hl. destruct cs; [|done]. unfold scan_one. by rewrite Hl.
Qed.

(** The scan of words each followed by a space yields the words. *)
Lemma scan_all_spaced ws : Forall (fun w => lexeme w = true) ws -> scan_all (spaced ws) ws.
Proof.
  induction 1 as [|w ws Hw _ IH]; [constructor|].
  destruct (scan_one_lexeme w (spaced ws) Hw) as (c & cs & -> & E).
  rewrite spaced_cons. cbn [app]. eapply scan_emit; [exact E|].
  eapply scan_skip; [apply scan_one_space|exact IH].
Qed.

Lemma findall_spaced ws : Forall (fun w => lexeme w = true) ws -> findall (spaced ws) = ws.
Proof.
  intros H. apply (scan_all_det (spaced ws)); [|exact (scan_all_spaced ws H)].
  by apply findall_fuel_scan_all.
Qed.

Lemma sexp_words_lexemes e : sexp_ok e = true -> Forall (fun w => lexeme w = true) (sexp_words e).
Proof.
  induction e as [w|l IH] using sexp_ind'; cbn [sexp_ok sexp_words].
  - intros H. constructor; [|done]. unfold lexeme. by rewrite <- orb_assoc, H, orb_true_r.
  - intros Hl. constructor; [done|]. apply Forall_app; split; [|by repeat constructor].
    apply Forall_flat_map. rewrite Forall_forall in IH |- *. intros e He.
    apply IH; [done|]. rewrite forallb_forall in Hl. by apply Hl, list_elem_of_In.
Qed.

Section ReadTok.
Context {PF : PyFloat}.

(** [determine] gives each lexeme its token. *)
Lemma determine_lexeme w : lexeme w = true -> determine (string_of_list_ascii w) = Some (word_tok w).
Proof.
  intros Hl. unfold determine, word_tok. rewrite list_ascii_of_string_of_list_ascii.
  destruct (isnumeric w) eqn:Hn; [done|].
  enough (Hd : existsb (Ascii.eqb "."%char) w = false) by (by rewrite Hd).
  apply not_true_iff_false. rewrite existsb_exists. intros (x & Hx & Hdot%Ascii.eqb_eq). subst x.
  unfold lexeme in Hl. rewrite Hn, orb_false_r in Hl.
  apply orb_true_iff in Hl as [Hp|Hs].
  - destruct w as [|c [|]]; try done. destruct Hx as [->|[]]. discriminate Hp.
  - destruct w as [|c cs]; [done|]. unfold symbol_word in Hs. rewrite forallb_forall in Hs.
    apply Hs in Hx. discriminate.
Qed.

Lemma words_unparse e : map word_tok (sexp_words e) = unparse (sexp_expr e).
Proof.
  induction e as [w|l IH] using sexp_ind'; [done|]. simpl. f_equal.
  rewrite map_app. f_equal. induction IH as [|e l He _ IHl]; [done|]. simpl.
  by rewrite map_app, He, IHl.
Qed.

(** The text of a tree lexes to the print of its tree of tokens. *)
Lemma tokenize_print e : sexp_ok e = true -> tokenize (print_sexp e) = map Some (unparse (sexp_expr e)).
Proof.
  intros Hok. unfold tokenize, print_sexp. rewrite list_ascii_of_string_of_list_ascii.
  pose proof (sexp_words_lexemes e Hok) as Hlex. rewrite findall_spaced by exact Hlex.
  rewrite <- words_unparse, map_map. apply map_ext_in. intros w Hw.
  apply determine_lexeme. rewrite Forall_forall in Hlex. by apply Hlex, list_elem_of_In.
Qed.

(** A numeral or a symbol is no parenthesis. *)
Lemma word_tok_atom w : isnumeric w || symbol_word w = true -> atom_ok (word_tok w) = true.
Proof.
  unfold word_tok, atom_ok, is_lparen, is_rparen. destruct (isnumeric w); [done|].
  cbv iota. unfold lparen, rparen. intros Hs.
  enough (H : forall p, is_paren p = true -> tok_eqb (sym (string_of_list_ascii w)) (sym (String p EmptyString)) = false).
  { by rewrite (H "("%char eq_refl), (H ")"%char eq_refl). }
  intros p Hp. apply not_true_iff_false. rewrite tok_eqb_sym_iff. intros Heq.
  apply (f_equal list_ascii_of_string) in Heq. rewrite list_ascii_of_string_of_list_ascii in Heq.
  subst w. simpl in Hs. unfold is_word in Hs. rewrite Hp in Hs. by rewrite !andb_false_r in Hs.
Qed.

Lemma sexp_expr_ok e : sexp_ok e = true -> expr_ok (sexp_expr e).
Proof.
  induction e as [w|l IH] using sexp_ind'; cbn [sexp_ok sexp_expr].
  - intros Hw. repeat constructor. by apply word_tok_atom.
  - intros Hl. apply expr_ok_list. induction IH as [|e l He _ IHl]; [constructor|].
    cbn [forallb] in Hl. apply andb_true_iff in Hl as [He' Hl]. constructor; auto.
Qed.

Lemma is_rparen_lparen : is_rparen lparen = false.
Proof. reflexivity. Qed.

(** A printed tree has as many ["("] as [")"]. *)
Lemma unparse_parens e :
  expr_ok e -> length (List.filter is_lparen (unparse e)) = length (List.filter is_rparen (unparse e)).
Proof.
  induction e as [t|es IH] using expr_ind'; intros Hok.
  - unfold expr_ok in Hok. inversion Hok as [|? ? Ha _]; subst. unfold atom_ok in Ha.
    apply andb_true_iff in Ha as [Hl Hr]. apply negb_true_iff in Hl, Hr. simpl. by rewrite Hl, Hr.
  - apply expr_ok_list in Hok. cbn [unparse List.filter].
    rewrite is_lparen_lparen, is_rparen_lparen, !List.filter_app. cbn [List.filter].
    rewrite is_lparen_rparen, is_rparen_rparen, !length_app. cbn [length].
    enough (H : length (List.filter is_lparen (flat_map unparse es)) =
                length (List.filter is_rparen (flat_map unparse es))) by (rewrite ?app_nil_r; lia).
    induction IH as [|e es He _ IHes]; [done|]. inversion Hok as [|? ? Hoke Hokes]; subst.
    cbn [flat_map]. rewrite !List.filter_app, !length_app, He, IHes by done. done.
Qed.

Lemma balance_print e : expr_ok e -> balance (map Some (unparse e)) = Ret 0%Z.
Proof.
  intros Hok. unfold balance. rewrite balance_loop_count, filter_rparen, unparse_parens by done.
  f_equal. lia.
Qed.

Lemma parse_print e : expr_ok e -> parse (map Some (unparse e)) = Ret [e].
Proof.
  intros Hok. unfold parse. rewrite <- (app_nil_r (map Some (unparse e))).
  by rewrite parse_loop_unparse.
Qed.

(** ** Theorem *)

(** C7 (roundtrip): the text of a tree of numerals and symbols, printed
    with a space after every token, is read back by [tokenize] and [parse]
    as the tree of the tokens [determine] gives its words -- one form --
    and [eval_expr] on that text evaluates that tree in the empty scope:
    the parenthesis count passes and nothing is lost or split. *)
Theorem read_printed e :
  sexp_ok e = true ->
  parse (tokenize (print_sexp e)) = Ret [sexp_expr e] /\
  forall s, eval_expr (print_sexp e) s = evaluate (sexp_expr e) [] s.
Proof.
  intros Hok. pose proof (sexp_expr_ok e Hok) as He.
  split; [by rewrite tokenize_print, parse_print|].
  intros s. unfold eval_expr. rewrite tokenize_print, balance_print by done.
  cbn [Z.eqb negb]. by rewrite parse_print.
Qed.
End ReadTok.

(** The text of [(+ 12 (x))]. *)
Example print_sexp_example :
  print_sexp (SList [SAtom ["+"%char]; SAtom ["1"%char; "2"%char]; SList [SAtom ["x"%char]]]) =
    "( + 12 ( x ) ) "%string.
Proof. reflexivity. Qed.

Lemma read_printed_witness :
  sexp_ok (SList [SAtom ["+"%char]; SAtom ["1"%char; "2"%char]; SList [SAtom ["x"%char]]]) = true /\
  parse (tokenize "( + 12 ( x ) ) "%string) =
    Ret [EList [ETok (sym "+"); ETok (Tok (VInt 12) INT); EList [ETok (@sym QFloat "x")]]].
Proof.
  split; [reflexivity|].
  exact (proj1 (read_printed (SList [SAtom ["+"%char]; SAtom ["1"%char; "2"%char];
                                     SList [SAtom ["x"%char]]]) eq_refl)).
Defined.
