(* ===== verification/Session.v ===== *)
(** The program's top level: how results are shown ([Tok.__str__],
    [Tok.__repr__], scheme.py 36-54, and Python's [str] of the other values
    [evaluate] returns), the read-eval-print loop [repl] (scheme.py
    226-233), the test driver [run_tests] (scheme.py 258-274), the test
    suite [test] (scheme.py 357-456) and the script's entry point, which
    runs [test()] and then [repl()] in the same interpreter state
    (scheme.py 458-460).

    [repl] reads lines until [".q"]; each other line is evaluated by
    [eval_expr] and its result printed after [">>> "].  An exception raised
    by [eval_expr] leaves the loop and ends the program; so does the end of
    the input, on which [input()] raises EOFError.  [repl_loop] returns the
    final state, the printed lines, and how the loop ended.

    [run_tests] compares results with [==]: [Tok.__eq__] reads
    [other.value], so comparing a [Tok] with [None], an int, a list or a
    function raises AttributeError; lists compare by length first, then
    element by element ([py_list_eq]).

    Section [Stdout] renders what [repl] writes: [repl_io] adds the prompt
    of [input()], the text of the messages printed while a line is
    evaluated and the result line; [repl_stdout] relates it to
    [repl_loop].  Section [TestIO] does the same for [run_tests] and
    [test()], and [main_io] is the whole script's output. *)

From Stdlib Require Import String Ascii ZArith List Bool Lia.
From stdpp Require Import base tactics list.
From S2P Require Import Prelude PyNum PyValue Token Lexer Parser Tables Eval.
Import ListNotations.
Open Scope string_scope.

Section Show.
Context {PF : PyFloat}.

(** [f"{v}"] of a token's value: [format(v, "")], i.e. [str(v)]. *)
Definition show_value (v : pyval) : string :=
  match v with
  | VInt z => Z_to_dec z
  | VFlo f => f_repr f
  | VStr s => s
  end.

(** [Tok.__str__] *)
Definition tok_str (t : tok) : string :=
  match kind t with
  | INT => "i:" ++ show_value (value t)
  | FLO => "f:" ++ show_value (value t)
  | SYM => "s:" ++ show_value (value t)
  | FUN => "λ:" ++ show_value (value t)
  end.

(** [Tok.__repr__] *)
Definition tok_repr (t : tok) : string :=
  match kind t with
  | INT => "Tok(" ++ show_value (value t) ++ ", INT)"
  | FLO => "Tok(" ++ show_value (value t) ++ ", FLO)"
  | SYM => "Tok('" ++ show_value (value t) ++ "', SYM)"
  | FUN => "Tok('" ++ show_value (value t) ++ "', FUN)"
  end.

(** [repr] of a parse tree: [list.__repr__] shows the [repr] of each
    element, separated by [", "]. *)
Fixpoint expr_repr (e : expr) : string :=
  match e with
  | ETok t => tok_repr t
  | EList es => "[" ++ String.concat ", " (map expr_repr es) ++ "]"
  end.

(** [str] of a result of [evaluate].  A Python function shows its address,
    which the program does not determine; it is left out here. *)
Definition obj_str (o : obj) : string :=
  match o with
  | OExpr (ETok t) => tok_str t
  | OExpr e => expr_repr e
  | OBuiltin _ => "<function <lambda>>"
  | ONone => "None"
  | OInt z => Z_to_dec z
  end.
End Show.

Section Compare.
Context {PF : PyFloat}.

(** [==] between two Python lists: different lengths are unequal without
    looking at the elements; otherwise elements are compared in order and
    the first difference (or exception) decides. *)
Definition py_list_eq {A B} (eq : A -> B -> outcome bool) (xs : list A) (ys : list B)
    : outcome bool :=
  if Nat.eqb (length xs) (length ys) then
    (fix go xs ys :=
       match xs, ys with
       | x :: xs', y :: ys' => obind (eq x y) (fun b => if b then go xs' ys' else Ret false)
       | _, _ => Ret true
       end) xs ys
  else Ret false.

(** [==] between parse trees.  A [Tok] compared with a list calls
    [Tok.__eq__] (directly, or reflected after [list.__eq__] declines),
    which reads [.value] of the list. *)
Fixpoint expr_eq (a b : expr) : outcome bool :=
  match a, b with
  | ETok x, ETok y => Ret (tok_eqb x y)
  | EList xs, EList ys => py_list_eq expr_eq xs ys
  | _, _ => Raise AttributeError
  end.

(** [token == expected] for a token of [tokenize]: [None] has no [.value]. *)
Definition opt_tok_eq (a : option tok) (b : tok) : outcome bool :=
  match a with
  | Some x => Ret (tok_eqb x b)
  | None => Raise AttributeError
  end.

(** [res == expected] for a result of [eval_expr] and an expected token. *)
Definition obj_eq_tok (o : obj) (b : tok) : outcome bool :=
  match o with
  | OExpr (ETok x) => Ret (tok_eqb x b)
  | _ => Raise AttributeError
  end.
End Compare.

Section Loop.
Context {PF : PyFloat}.

#[local] Abbreviation M := (PyM state).

(** [while True: query = input(">>> "); if query == ".q": break;
    else: print(">>> " + str(eval_expr(query)))] over the lines [inputs].
    The printed lines come back with the final state and the way the loop
    ended: [Ret tt] at [".q"], the exception otherwise. *)
Fixpoint repl_loop (inputs : list string) (s : state)
    : state * list string * outcome unit :=
  match inputs with
  | [] => (s, [], Raise EOFError)
  | query :: rest =>
      if String.eqb query ".q" then (s, [], Ret tt)
      else
        match eval_expr query s with
        | (s', Raise e) => (s', [], Raise e)
        | (s', Ret o) =>
            let '(s'', out, r) := repl_loop rest s' in
            (s'', (">>> " ++ obj_str o) :: out, r)
        end
  end.

(** [run_tests(fun, *tests)]: stop at the first test whose result is not
    [==] to the expected one.  The progress lines it prints go to stdout
    and are not kept. *)
Fixpoint run_tests {A B} (f : string -> M A) (eq : A -> B -> outcome bool)
    (tests : list (string * B)) : M bool :=
  match tests with
  | [] => pret true
  | (input, expected) :: rest =>
      res <- f input ;;
      ok <- plift (eq res expected) ;;
      if ok then run_tests f eq rest else pret false
  end.

Definition int_t (z : Z) : tok := Tok (VInt z) INT.
Definition flo_t (v : pyval) : tok := Tok v FLO.
Definition syms (l : list string) : list expr := map (fun s => ETok (sym s)) l.

(** The cases of [test()] (scheme.py 361-439), as written there. *)
Definition tokenize_tests : list (string * list tok) :=
  [("(+ 1 2)", [lparen; sym "+"; int_t 1; int_t 2; rparen]);
   ("(+ x y)", [lparen; sym "+"; sym "x"; sym "y"; rparen]);
   ("(+ (* a b) (expt c d))",
    [lparen; sym "+"; lparen; sym "*"; sym "a"; sym "b"; rparen;
     lparen; sym "expt"; sym "c"; sym "d"; rparen; rparen])].

Definition parse_tests : list (string * list expr) :=
  [("(+ 1 2)", [EList [ETok (sym "+"); ETok (int_t 1); ETok (int_t 2)]]);
   ("(* (- 1 2) 2)",
    [EList [ETok (sym "*"); EList [ETok (sym "-"); ETok (int_t 1); ETok (int_t 2)];
            ETok (int_t 2)]]);
   ("(* a (+ b (- c (* d (+ e f) (+ g h i)) j k) l) m)",
    [EList (syms ["*"; "a"] ++
            [EList (syms ["+"; "b"] ++
                    [EList (syms ["-"; "c"] ++
                            [EList (syms ["*"; "d"] ++
                                    [EList (syms ["+"; "e"; "f"]);
                                     EList (syms ["+"; "g"; "h"; "i"])])] ++
                            syms ["j"; "k"])] ++ syms ["l"])] ++ syms ["m"])])].

(** Float literals of the expected values: [-3.0], [1.0], [89.0], and
    [1 / 2 / 3] computed as Python does, [0.5 / 3]. *)
Definition evaluate_tests : list (string * tok) :=
  [("(+ 1 2 3)", flo_t (VInt 6));
   ("(/ 1 2 3)", flo_t (VFlo (f_div (f_of_dec 5 1) (f_of_dec 3 0))));
   ("(* (+ 1 2) (- 2 4) (/ 1 2))", flo_t (VFlo (f_of_dec (-30) 1)));
   ("(+ 1 (+ (+ 1 1) 1) (+ (+ (+ (+ 1 1) 1) 1) (+ 1 1)))", flo_t (VInt 10));
   ("(* 1 (* 4 4) (* 4 4) (* 4 4) (* 4 4) (* 4 4) (* 4 4) (* 4 4))", flo_t (VInt 268435456));
   ("(* (/ 1 3) 3)", flo_t (VFlo (f_of_dec 10 1)));
   ("(let ((a 10) (b 20) (c 30)) (+ a b c))", flo_t (VInt 60));
   ("(let ((a 1)) (let ((b 2)) (+ a b)))", flo_t (VInt 3));
   ("(let ((a (* 29 1))) (let ((b (+ a a 2))) (+ a b)))", flo_t (VFlo (f_of_dec 890 1)))].

(** [test()]: the three runs and their results [[r1, r2, r3]]. *)
Definition test_suite : M (list bool) :=
  r1 <- run_tests (fun x => pret (tokenize x)) (py_list_eq opt_tok_eq) tokenize_tests ;;
  r2 <- run_tests (fun x => plift (parse (tokenize x))) (py_list_eq expr_eq) parse_tests ;;
  r3 <- run_tests eval_expr obj_eq_tok evaluate_tests ;;
  pret [r1; r2; r3].

(** [if __name__ == "__main__": test(); repl()]: one symbol table for
    both. *)
Definition main (inputs : list string) : state * list string * outcome unit :=
  match test_suite init_state with
  | (s, Ret _) => repl_loop inputs s
  | (s, Raise e) => (s, [], Raise e)
  end.
End Loop.

Section LoopFacts.
Context {PF : PyFloat}.

Definition show_line (o : obj) : string := ">>> " ++ obj_str o.

(** Lines that are not [".q"] and whose evaluation does not raise are
    printed one by one; the loop then carries on with the rest of the
    input in the state they left. *)
Lemma repl_loop_app qs rest s s' os :
  Forall (fun q => q <> ".q") qs ->
  mapM eval_expr qs s = (s', Ret os) ->
  repl_loop (qs ++ rest) s =
    let '(s'', out, r) := repl_loop rest s' in (s'', (map show_line os ++ out)%list, r).
Proof.
  revert s os. induction qs as [|q qs IH]; intros s os Hq Hm.
  - injection Hm as <- <-. simpl. by destruct (repl_loop rest s) as [[??]?].
  - inversion Hq as [|? ? Hq1 Hqs]; subst; clear Hq; rename Hq1 into Hq. simpl in Hm |- *.
    apply String.eqb_neq in Hq. rewrite Hq. unfold pbind in Hm.
    destruct (eval_expr q s) as [s1 [o|e]]; [|discriminate].
    destruct (mapM eval_expr qs s1) as [s2 [os'|e]] eqn:E; [|discriminate].
    injection Hm as <- <-. rewrite (IH s1 os' Hqs E).
    by destruct (repl_loop rest s2) as [[??]?].
Qed.
End LoopFacts.

Section Claims.
Context {PF : PyFloat}.

(** C19 (refinement): up to the first [".q"], the REPL is [eval_expr]
    mapped over its input lines in one threaded state: if those lines
    evaluate without an exception to [os], the session prints one line
    [">>> " + str(o)] per result, ignores everything after [".q"] and ends
    normally. *)
Theorem repl_quit qs rest s s' os :
  Forall (fun q => q <> ".q") qs ->
  mapM eval_expr qs s = (s', Ret os) ->
  repl_loop (qs ++ ".q" :: rest) s = (s', map show_line os, Ret tt).
Proof. intros Hq Hm. rewrite (repl_loop_app _ _ _ _ _ Hq Hm). simpl. by rewrite app_nil_r. Qed.

(** C20 (error): an exception raised while evaluating a line ends the
    whole session: the lines before it have been printed, nothing after
    it is read, and the exception (with the state it left) is the
    program's result. *)
Theorem repl_raise_ends qs q rest s s1 s2 os e :
  Forall (fun x => x <> ".q") qs -> q <> ".q" ->
  mapM eval_expr qs s = (s1, Ret os) ->
  eval_expr q s1 = (s2, Raise e) ->
  repl_loop (qs ++ q :: rest) s = (s2, map show_line os, Raise e).
Proof.
  intros Hqs Hq Hm He. rewrite (repl_loop_app _ _ _ _ _ Hqs Hm). simpl.
  apply String.eqb_neq in Hq. rewrite Hq, He. simpl. by rewrite app_nil_r.
Qed.
End Claims.

Lemma repl_quit_witness :
  repl_loop (["(+ 1 2)"] ++ ".q" :: ["(+ 3 4)"]) init_state =
    (init_state, [">>> f:3"], Ret tt).
Proof.
  apply (repl_quit ["(+ 1 2)"] ["(+ 3 4)"] init_state init_state [OExpr (ETok (Tok (VInt 3) FLO))]).
  - apply List.Forall_cons; [discriminate|apply List.Forall_nil].
  - vm_eq.
Defined.

Lemma repl_raise_ends_witness :
  repl_loop (["(+ 1 2)"] ++ "(/ 1 0)" :: ["(+ 3 4)"]) init_state =
    (init_state, [">>> f:3"], Raise ZeroDivisionError).
Proof.
  apply (repl_raise_ends ["(+ 1 2)"] "(/ 1 0)" ["(+ 3 4)"] init_state init_state init_state
           [OExpr (ETok (Tok (VInt 3) FLO))] ZeroDivisionError).
  - apply List.Forall_cons; [discriminate|apply List.Forall_nil].
  - discriminate.
  - vm_eq.
  - vm_eq.
Defined.

(** ** What the program writes to stdout *)

Section Stdout.
Context {PF : PyFloat}.

(** [NAME] and [VERSION] (scheme.py 6-7); [f"{VERSION}"] of the float
    [1.0] is ["1.0"]. *)
Definition NAME : string := "Scheme.py LISP REPL".
Definition VERSION : string := "1.0".

(** [print(f" :: {NAME} {VERSION} ")] *)
Definition banner : string := " :: " ++ NAME ++ " " ++ VERSION ++ " ".

Definition nl : string := String (Ascii.ascii_of_nat 10) EmptyString.

(** [print(x)]: [x] and a newline. *)
Definition line (x : string) : string := x ++ nl.

(** The text of each error message; [f"{x=}"] shows ["x="] and [repr(x)]. *)
Definition msg_text (m : msg) : string :=
  match m with
  | MsgInvalidQuote => "Error: evaluate() invalid quote application"
  | MsgInvalidType fst => "Error: evaluate() invalid type fst=" ++ tok_repr fst
  | MsgDefineName args => "Error: fun_define(args=" ++ expr_repr (EList args) ++ ") invalid name"
  | MsgDefineArity args =>
      "Error: fun_define(args=" ++ expr_repr (EList args) ++ ") Too many arguments for definition"
  | MsgUnbalanced => "Error: Invalid expression, unbalanced parenthesizes"
  end.

(** The strings written one after the other. *)
Definition strcat (l : list string) : string := fold_right String.append "" l.

(** The messages printed while the state went from [s] to [s'], in order. *)
Definition printed_msgs (s s' : state) : string :=
  strcat (map (fun m => line (msg_text m)) (drop (length (output s)) (output s'))).

(** The loop of [repl] writing to stdout: the prompt [">>> "] of each
    [input()], the messages the evaluation prints, and the result line. *)
Fixpoint repl_io (inputs : list string) (s : state) : state * string * outcome unit :=
  match inputs with
  | [] => (s, ">>> ", Raise EOFError)
  | query :: rest =>
      if String.eqb query ".q" then (s, ">>> ", Ret tt)
      else
        match eval_expr query s with
        | (s', Raise e) => (s', ">>> " ++ printed_msgs s s', Raise e)
        | (s', Ret o) =>
            let '(s'', t, r) := repl_io rest s' in
            (s'', ">>> " ++ printed_msgs s s' ++ line (">>> " ++ obj_str o) ++ t, r)
        end
  end.

(** [repl()]: the banner, then the loop. *)
Definition repl (inputs : list string) (s : state) : state * string * outcome unit :=
  let '(s', t, r) := repl_io inputs s in (s', line banner ++ t, r).

(** ** Lemmas *)

Lemma eval_expr_keeps q : preserves grows (eval_expr q).
Proof.
  unfold eval_expr. destruct (balance _); [|pdone].
  destruct (negb _); [pbind; [apply print_grows|intros _; pdone]|].
  destruct (parse _) as [[|e ?]|]; [pdone|apply evaluate_grows|pdone].
Qed.

Lemma repl_loop_grows inputs s s' out r : repl_loop inputs s = (s', out, r) -> grows s s'.
Proof.
  revert s out r. induction inputs as [|q rest IH]; intros s out r; simpl.
  - intros [= <- _ _]. reflexivity.
  - destruct (String.eqb q ".q"); [intros [= <- _ _]; reflexivity|].
    destruct (eval_expr q s) as [s1 [o|e]] eqn:E.
    + destruct (repl_loop rest s1) as [[s2 out2] r2] eqn:E2. intros [= <- _ _].
      etrans; [exact (eval_expr_keeps q s s1 _ E)|exact (IH s1 out2 r2 E2)].
    + intros [= <- _ _]. exact (eval_expr_keeps q s s1 _ E).
Qed.

(** No message printed between [s] and [s1] when none is printed between
    [s] and a later [s']. *)
Lemma no_msgs_between s s1 s' : grows s s1 -> grows s1 s' -> output s' = output s ->
  output s1 = output s.
Proof.
  intros [_ H1] [_ H2] Ho. apply (anti_symm prefix); [by rewrite <- Ho|done].
Qed.

Lemma printed_msgs_none s s' : output s' = output s -> printed_msgs s s' = "".
Proof. intros Ho. unfold printed_msgs. by rewrite Ho, drop_all. Qed.
(** The transcript of the loop, when it prints no error message. *)
Lemma repl_io_loop inputs s s' out r :
  repl_loop inputs s = (s', out, r) -> output s' = output s ->
  repl_io inputs s = (s', strcat (map (fun l => ">>> " ++ line l) out) ++ ">>> ", r).
Proof.
  revert s out r. induction inputs as [|q rest IH]; intros s out r; simpl.
  - by intros [= <- <- <-].
  - destruct (String.eqb q ".q"); [by intros [= <- <- <-]|].
    destruct (eval_expr q s) as [s1 [o|e]] eqn:E.
    + destruct (repl_loop rest s1) as [[s2 out2] r2] eqn:E2. intros [= <- <- <-] Ho.
      assert (Ho1 : output s1 = output s)
        by exact (no_msgs_between _ _ _ (eval_expr_keeps q s s1 _ E) (repl_loop_grows _ _ _ _ _ E2) Ho).
      rewrite (IH s1 out2 r2 E2 ltac:(congruence)), printed_msgs_none by exact Ho1.
      cbn [map strcat fold_right]. unfold line.
      by repeat progress (simpl; rewrite ?string_append_assoc).
    + intros [= <- <- <-] Ho. by rewrite printed_msgs_none by exact Ho.
Qed.

(** ** Theorems *)

(** C14 (refinement): what [repl()] writes to stdout is the banner line,
    then for every result line of [repl_loop] the prompt [">>> "] of
    [input()] followed by that line, then the prompt of the last [input()]
    -- whenever the run prints no error message. *)
Theorem repl_stdout inputs s s' out r :
  repl_loop inputs s = (s', out, r) -> output s' = output s ->
  repl inputs s =
    (s', line banner ++ strcat (map (fun l => ">>> " ++ line l) out) ++ ">>> ", r).
Proof. intros H Ho. unfold repl. by rewrite (repl_io_loop _ _ _ _ _ H Ho). Qed.
End Stdout.

Lemma repl_stdout_witness :
  repl ["(+ 1 2)"; ".q"] init_state =
    (init_state, line banner ++ strcat (map (fun l => ">>> " ++ line l) [">>> f:3"]) ++ ">>> ", Ret tt).
Proof.
  apply repl_stdout; [vm_eq|reflexivity].
Defined.

(** A session with error messages, as the program prints it. *)
Example repl_stdout_errors :
  (fst (repl ["(define (a) 2)"; "(+ 1 2"] init_state)).2 =
    line " :: Scheme.py LISP REPL 1.0 " ++
    ">>> " ++ line "Error: fun_define(args=[[Tok('a', SYM)], Tok(2, INT)]) invalid name" ++
    line ">>> None" ++
    ">>> " ++ line "Error: Invalid expression, unbalanced parenthesizes" ++
    line ">>> None" ++ ">>> ".
Proof. vm_eq. Qed.

(** ** What [test()] writes to stdout *)

Section TestIO.
Context {PF : PyFloat}.
#[local] Abbreviation M := (PyM state).

(** A computation that also writes to stdout: the text written before an
    exception is kept. *)
Definition IO (A : Type) : Type := state -> state * string * outcome A.

Definition ibind {A B} (m : IO A) (k : A -> IO B) : IO B := fun s =>
  match m s with
  | (s1, t1, Raise e) => (s1, t1, Raise e)
  | (s1, t1, Ret a) => let '(s2, t2, r) := k a s1 in (s2, t1 ++ t2, r)
  end.

Definition iwrite (t : string) : IO unit := fun s => (s, t, Ret tt).

(** [run_tests] with what it prints: [f"[{i}] {test[0]}"] for each test
    that passes; for the first that fails [f"INCORRECT: [{i}] {test[0]}"],
    [" ==> "] and [str(test[1])].  The messages [fun] prints come first. *)
Fixpoint run_tests_io {A B} (f : string -> M A) (eq : A -> B -> outcome bool)
    (show : B -> string) (i : nat) (tests : list (string * B)) : IO bool := fun s =>
  match tests with
  | [] => (s, "", Ret true)
  | (input, expected) :: rest =>
      let idx := Z_to_dec (Z.of_nat i) in
      match f input s with
      | (s1, Raise e) => (s1, printed_msgs s s1, Raise e)
      | (s1, Ret res) =>
          match eq res expected with
          | Raise e => (s1, printed_msgs s s1, Raise e)
          | Ret true =>
              let '(s2, t, r) := run_tests_io f eq show (S i) rest s1 in
              (s2, printed_msgs s s1 ++ line ("[" ++ idx ++ "] " ++ input) ++ t, r)
          | Ret false =>
              (s1, printed_msgs s s1 ++ line ("INCORRECT: [" ++ idx ++ "] " ++ input) ++
                   " ==> " ++ line (show expected), Ret false)
          end
      end
  end.

(** [print("\nTest: ...")] and the line under it. *)
Definition heading (title underline : string) : string :=
  nl ++ line ("Test: " ++ title) ++ line ("      " ++ underline).

(** [str()] of the expected values: a list shows the [repr] of its
    elements, a token its [__str__]. *)
Definition show_toks (l : list tok) : string := expr_repr (EList (map ETok l)).
Definition show_exprs (l : list expr) : string := expr_repr (EList l).

(** The closing lines of [test()]: [print()], then the count of passing
    runs against [len(result)]. *)
Definition summary (result : list bool) : string :=
  let acc := length (filter (fun b : bool => b) result) in
  nl ++
  if Nat.ltb acc (length result)
  then line (nl ++ "Test: " ++ Z_to_dec (Z.of_nat acc) ++ "/" ++
             Z_to_dec (Z.of_nat (length result)) ++ " Tests Failed")
  else line "Test: All Tests Succeeded" ++ line "                ¨¨¨¨¨¨¨¨¨".

(** [test()] with its output. *)
Definition test_io : IO (list bool) :=
  ibind (iwrite (heading "tokenize()" "¨¨¨¨¨¨¨¨")) (fun _ =>
  ibind (run_tests_io (fun x => pret (tokenize x)) (py_list_eq opt_tok_eq) show_toks 0
           tokenize_tests) (fun r1 =>
  ibind (iwrite (heading "parse()" "¨¨¨¨¨")) (fun _ =>
  ibind (run_tests_io (fun x => plift (parse (tokenize x))) (py_list_eq expr_eq) show_exprs 0
           parse_tests) (fun r2 =>
  ibind (iwrite (heading "evaluate()" "¨¨¨¨¨¨¨¨")) (fun _ =>
  ibind (run_tests_io eval_expr obj_eq_tok tok_str 0 evaluate_tests) (fun r3 =>
  ibind (iwrite (summary [r1; r2; r3])) (fun _ s => (s, "", Ret [r1; r2; r3])))))))).

(** The script: [test()], then [repl()] in the same state; everything it
    writes to stdout. *)
Definition main_io (inputs : list string) : state * string * outcome unit :=
  ibind test_io (fun _ => repl inputs) init_state.

(** ** Lemmas *)

(** Printing does not change what [run_tests] computes. *)
Lemma run_tests_io_agrees {A B} (f : string -> M A) eq (show : B -> string) tests i s :
  let '(s', _, r) := run_tests_io f eq show i tests s in run_tests f eq tests s = (s', r).
Proof.
  revert i s. induction tests as [|[input expected] rest IH]; intros i s; [done|].
  cbn [run_tests_io run_tests]. unfold pbind, plift.
  destruct (f input s) as [s1 [res|e]]; [|done].
  destruct (eq res expected) as [[|]|e]; [|done|done].
  specialize (IH (S i) s1). by destruct (run_tests_io f eq show (S i) rest s1) as [[??]?].
Qed.

(** [test_io] computes what [test_suite] computes. *)
Lemma test_io_agrees s :
  let '(s', _, r) := test_io s in test_suite s = (s', r).
Proof.
  unfold test_io, test_suite, ibind, iwrite, pbind.
  pose proof (run_tests_io_agrees (fun x => pret (tokenize x)) (py_list_eq opt_tok_eq)
                show_toks tokenize_tests 0 s) as H1.
  destruct (run_tests_io _ _ _ _ _ s) as [[s1 t1] [r1|e]]; rewrite H1; [|done].
  pose proof (run_tests_io_agrees (fun x => plift (parse (tokenize x))) (py_list_eq expr_eq)
                show_exprs parse_tests 0 s1) as H2.
  destruct (run_tests_io _ _ _ _ _ s1) as [[s2 t2] [r2|e]]; rewrite H2; [|done].
  pose proof (run_tests_io_agrees eval_expr obj_eq_tok tok_str evaluate_tests 0 s2) as H3.
  by destruct (run_tests_io _ _ _ _ _ s2) as [[s3 t3] [r3|e]]; rewrite H3.
Qed.
End TestIO.

(** What [test()] prints, as running scheme.py shows it. *)
Example test_stdout :
  (test_io init_state).1.2 =
  strcat (map line
    ["";
     "Test: tokenize()";
     "      ¨¨¨¨¨¨¨¨";
     "[0] (+ 1 2)";
     "[1] (+ x y)";
     "[2] (+ (* a b) (expt c d))";
     "";
     "Test: parse()";
     "      ¨¨¨¨¨";
     "[0] (+ 1 2)";
     "[1] (* (- 1 2) 2)";
     "[2] (* a (+ b (- c (* d (+ e f) (+ g h i)) j k) l) m)";
     "";
     "Test: evaluate()";
     "      ¨¨¨¨¨¨¨¨";
     "[0] (+ 1 2 3)";
     "[1] (/ 1 2 3)";
     "[2] (* (+ 1 2) (- 2 4) (/ 1 2))";
     "[3] (+ 1 (+ (+ 1 1) 1) (+ (+ (+ (+ 1 1) 1) 1) (+ 1 1)))";
     "[4] (* 1 (* 4 4) (* 4 4) (* 4 4) (* 4 4) (* 4 4) (* 4 4) (* 4 4))";
     "[5] (* (/ 1 3) 3)";
     "[6] (let ((a 10) (b 20) (c 30)) (+ a b c))";
     "[7] (let ((a 1)) (let ((b 2)) (+ a b)))";
     "[8] (let ((a (* 29 1))) (let ((b (+ a a 2))) (+ a b)))";
     "";
     "Test: All Tests Succeeded";
     "                ¨¨¨¨¨¨¨¨¨"]).
Proof. vm_eq. Qed.

(** The script on the lines ["a"], ["(+ a b c)"] and [".q"]: the test
    output, the banner, and [a], [b], [c] already bound by the tests' [let]
    forms ([b] to the float [60.0]). *)
Example main_stdout :
  (main_io ["a"; "(+ a b c)"; ".q"]).1.2 =
  (test_io init_state).1.2 ++ line banner ++
  ">>> " ++ line ">>> f:29" ++ ">>> " ++ line ">>> f:119.0" ++ ">>> ".
Proof. vm_eq. Qed.
