(* ===== verification/Repl.v ===== *)
(** The read-eval-print loop [repl] (scheme.py 226-233) as a state
    machine.

    A configuration is either running -- the interpreter state, the lines
    not yet read, the lines printed so far -- or halted with the way the
    program ended: [break] on [".q"], EOFError from [input()] at the end of
    the input, or the exception [eval_expr] raised.  [repl_step] is one turn
    of the [while True] loop.

    Theorem: along every run no binding or error message is lost and at
    most one line is printed per line read ([repl_reachable_invariant]),
    by rule induction over the reflexive-transitive closure of
    [repl_step]. *)

From Stdlib Require Import String Ascii ZArith List Bool Lia.
From stdpp Require Import base tactics list.
From S2P Require Import Prelude PyNum PyValue Token Lexer Parser Tables Eval Session.
Import ListNotations.
Open Scope string_scope.

Section Machine.
Context {PF : PyFloat}.

Inductive config :=
  | Running (s : state) (pending : list string) (printed : list string)
  | Halted (s : state) (printed : list string) (r : outcome unit).

(** One iteration of [while True: query = input(">>> ") ...]. *)
Inductive repl_step : config -> config -> Prop :=
  | rs_eof s out :
      repl_step (Running s [] out) (Halted s out (Raise EOFError))
  | rs_quit s rest out :
      repl_step (Running s (".q" :: rest) out) (Halted s out (Ret tt))
  | rs_print s s' q rest out o :
      q <> ".q" -> eval_expr q s = (s', Ret o) ->
      repl_step (Running s (q :: rest) out) (Running s' rest (out ++ [show_line o])%list)
  | rs_raise s s' q rest out e :
      q <> ".q" -> eval_expr q s = (s', Raise e) ->
      repl_step (Running s (q :: rest) out) (Halted s' out (Raise e)).

Definition cstate (c : config) : state :=
  match c with Running s _ _ | Halted s _ _ => s end.

Definition cprinted (c : config) : list string :=
  match c with Running _ _ out | Halted _ out _ => out end.

Definition cpending (c : config) : list string :=
  match c with Running _ p _ => p | Halted _ _ _ => [] end.

(** ** Lemmas *)

(** What every configuration reached from [Running s0 inputs []] keeps. *)
Definition repl_inv (s0 : state) (n : nat) (c : config) : Prop :=
  grows s0 (cstate c) /\ length (cprinted c) + length (cpending c) <= n.

Lemma repl_inv_step s0 n c c' : repl_step c c' -> repl_inv s0 n c -> repl_inv s0 n c'.
Proof.
  intros Hs [Hg Hn].
  destruct Hs as [s out|s rest out|s s' q rest out o Hq E|s s' q rest out e Hq E];
    unfold repl_inv; cbn [cstate cprinted cpending length] in *.
  - split; [exact Hg|lia].
  - split; [exact Hg|lia].
  - split; [etrans; [exact Hg|exact (eval_expr_keeps q s s' (Ret o) E)]|].
    rewrite length_app. simpl. lia.
  - split; [etrans; [exact Hg|exact (eval_expr_keeps q s s' (Raise e) E)]|lia].
Qed.

(** ** Theorems *)

(** C8 (invariant): along every run of the REPL from state [s0] on the
    lines [inputs], the symbol table keeps every binding of [s0] and the
    error messages only grow, and the lines printed plus the lines still
    unread never exceed the lines given: at most one output line per input
    line. *)
Theorem repl_reachable_invariant s0 inputs c :
  star repl_step (Running s0 inputs []) c ->
  grows s0 (cstate c) /\ length (cprinted c) + length (cpending c) <= length inputs.
Proof.
  intros H. apply (star_invariant _ (repl_inv s0 (length inputs)) (repl_inv_step s0 _) _ _ H).
  split; [reflexivity|done].
Qed.
End Machine.

Lemma repl_reachable_invariant_witness :
  grows init_state init_state /\ 1 + 0 <= 2.
Proof.
  apply (repl_reachable_invariant init_state ["(+ 1 2)"; ".q"]
           (Halted init_state [">>> f:3"] (Ret tt))).
  eapply star_step.
  - apply (rs_print init_state init_state "(+ 1 2)" [".q"] [] (OExpr (ETok (Tok (VInt 3) FLO))));
      [discriminate|vm_eq].
  - apply star_one. apply rs_quit.
Defined.

