(* ===== verification/TokenOps.v ===== *)
(** The methods of [Tok] that the evaluator does not call -- [__hash__],
    [__add__], [__sub__], [__mul__], [__div__] (scheme.py 18-31) -- and
    the helpers [tokt] and [istok] (scheme.py 83-85, 93-95), and
    [construct_lambda] and [call_lambda] (scheme.py 316-324), which no
    path of the evaluator reaches.

    [__hash__] returns [hash((self.value, self.kind))].  Python computes
    it with CPython's hashes, written here at their width: the hash of an
    int is its residue modulo [2^61 - 1] with the sign of the int, [-1]
    mapped to [-2] ([int_hash]); the hash of a tuple is the xxHash-style
    mix of the element hashes over unsigned 64-bit words ([tuple_hash]).
    The hashes of a str (salted per process) and of a non-integral float
    are not fixed by the language; the class [PyHash] takes them as
    parameters with the laws Python guarantees: a float equal to an int
    hashes like the int, equal floats hash alike, and no hash is [-1] or
    outside the 64-bit range.

    The theorem [tok_hash_eq] shows that [__hash__] agrees with
    [__eq__] and returns a valid hash: the reason a dict keyed by [Tok] --
    [symbol_table], [function_table], [macro_table] -- behaves as the
    association list compared with [tok_eqb] that [Tables] models. *)

From Stdlib Require Import String Ascii ZArith List Bool Lia QArith.
From stdpp Require Import base tactics list.
From S2P Require Import Prelude PyNum PyValue Token Parser Tables.
Import ListNotations.
Open Scope Z_scope.

(** ** CPython's hashes at 64 bits *)

(** A [Py_uhash_t]: a value modulo [2^64]. *)
Definition u64 (z : Z) : Z := z mod 2 ^ 64.

(** [(Py_uhash_t)-1]. *)
Definition mask64 : Z := 2 ^ 64 - 1.

(** [(Py_hash_t)u]: the signed reading of an unsigned 64-bit word. *)
Definition to_hash_t (u : Z) : Z := if u <? 2 ^ 63 then u else u - 2 ^ 64.

(** What [hash()] can return: a signed 64-bit word other than [-1], which
    CPython reserves for an error. *)
Definition hash_valid (h : Z) : Prop := - 2 ^ 63 <= h < 2 ^ 63 /\ h <> -1.

(** [_PyHASH_MODULUS] *)
Definition PyHASH_MODULUS : Z := 2 ^ 61 - 1.

(** [long_hash]: the residue of [|z|] with the sign of [z]; [-1] becomes
    [-2]. *)
Definition int_hash (z : Z) : Z :=
  let h := if z <? 0 then - ((- z) mod PyHASH_MODULUS) else z mod PyHASH_MODULUS in
  if h =? -1 then -2 else h.

Definition XXPRIME_1 : Z := 11400714785074694791.
Definition XXPRIME_2 : Z := 14029467366897019727.
Definition XXPRIME_5 : Z := 2870177450012600261.

(** [_PyHASH_XXROTATE(x)]: [(x << 31) | (x >> 33)] on a 64-bit word. *)
Definition xxrotate (x : Z) : Z := Z.lor (u64 (Z.shiftl x 31)) (Z.shiftr x 33).

(** One turn of the loop of [tuplehash] on the element hash [lane]. *)
Definition tuple_lane (acc lane : Z) : Z :=
  u64 (xxrotate (u64 (acc + u64 lane * XXPRIME_2)) * XXPRIME_1).

(** The loop of [tuplehash]; [None] when an element hash is [-1]. *)
Fixpoint tuple_loop (acc : Z) (lanes : list Z) : option Z :=
  match lanes with
  | [] => Some acc
  | lane :: rest => if u64 lane =? mask64 then None else tuple_loop (tuple_lane acc lane) rest
  end.

(** [tuplehash] on the hashes of the elements. *)
Definition tuple_hash (lanes : list Z) : Z :=
  match tuple_loop XXPRIME_5 lanes with
  | None => -1
  | Some acc =>
      let acc := u64 (acc + Z.lxor (Z.of_nat (length lanes)) (Z.lxor XXPRIME_5 3527539)) in
      if acc =? mask64 then 1546275796 else to_hash_t acc
  end.

(** Arithmetic on the 64-bit bounds. *)
Ltac hash_lia :=
  unfold hash_valid, mask64, PyHASH_MODULUS in *;
  change (2 ^ 61) with 2305843009213693952 in *;
  change (2 ^ 63) with 9223372036854775808 in *;
  change (2 ^ 64) with 18446744073709551616 in *; lia.

Lemma u64_range z : 0 <= u64 z < 2 ^ 64.
Proof. unfold u64. apply Z.mod_pos_bound. hash_lia. Qed.

Lemma to_hash_t_valid u : 0 <= u < 2 ^ 64 -> u <> mask64 -> hash_valid (to_hash_t u).
Proof. unfold to_hash_t. intros Hu Hm. destruct (Z.ltb_spec u (2 ^ 63)); hash_lia. Qed.

(** A valid hash is never [(Py_uhash_t)-1]. *)
Lemma valid_lane lane : hash_valid lane -> (u64 lane =? mask64) = false.
Proof.
  intros Hv. apply Z.eqb_neq. unfold u64. destruct (Z.leb_spec 0 lane).
  - rewrite Z.mod_small by hash_lia. hash_lia.
  - rewrite <- (Z.mod_unique lane (2 ^ 64) (-1) (lane + 2 ^ 64)); hash_lia.
Qed.

Lemma tuple_loop_some acc lanes :
  Forall hash_valid lanes -> exists r, tuple_loop acc lanes = Some r.
Proof.
  intros H. revert acc. induction H as [|lane lanes Hl _ IH]; intros acc; simpl; [by eexists|].
  rewrite valid_lane by exact Hl. apply IH.
Qed.

(** [tuplehash] of valid element hashes is a valid hash. *)
Lemma tuple_hash_valid lanes : Forall hash_valid lanes -> hash_valid (tuple_hash lanes).
Proof.
  intros H. unfold tuple_hash. destruct (tuple_loop_some XXPRIME_5 _ H) as [r ->]. cbv zeta.
  destruct (Z.eqb_spec (u64 (r + Z.lxor (Z.of_nat (length lanes)) (Z.lxor XXPRIME_5 3527539))) mask64)
    as [_|Hm]; [hash_lia|].
  apply to_hash_t_valid; [apply u64_range|exact Hm].
Qed.

Lemma int_hash_valid z : hash_valid (int_hash z).
Proof.
  unfold int_hash. destruct (Z.ltb_spec z 0).
  - pose proof (Z.mod_pos_bound (- z) PyHASH_MODULUS ltac:(hash_lia)).
    destruct (Z.eqb_spec (- (- z mod PyHASH_MODULUS)) (-1)); hash_lia.
  - pose proof (Z.mod_pos_bound z PyHASH_MODULUS ltac:(hash_lia)).
    destruct (Z.eqb_spec (z mod PyHASH_MODULUS) (-1)); hash_lia.
Qed.

(** The hashes Python leaves to the implementation, with their laws. *)
Class PyHash {PF : PyFloat} := {
  f_hash : F -> Z;
  str_hash : string -> Z;
  f_hash_eqb : forall f g, f_eqb f g = true -> f_hash f = f_hash g;
  f_hash_Z : forall f z, f_eq_Z f z = true -> f_hash f = int_hash z;
  f_hash_valid : forall f, hash_valid (f_hash f);
  str_hash_valid : forall s, hash_valid (str_hash s)
}.

Section TokenOps.
Context {PF : PyFloat} {PH : PyHash}.

(** [hash(v)] of a [value]. *)
Definition py_hash (v : pyval) : Z :=
  match v with
  | VInt z => int_hash z
  | VFlo f => f_hash f
  | VStr s => str_hash s
  end.

(** The strings the kind constants stand for (scheme.py 8-11). *)
Definition kind_name (k : token_kind) : string :=
  match k with
  | INT => "integer"
  | FLO => "float"
  | SYM => "symbol"
  | FUN => "function"
  end.

(** [Tok.__hash__]: [hash((self.value, self.kind))]. *)
Definition tok_hash (t : tok) : Z := tuple_hash [py_hash (value t); str_hash (kind_name (kind t))].

(** [Tok.__add__]: [self.value + other.value]. *)
Definition tok_add (a b : tok) : outcome pyval := py_add (value a) (value b).

(** [Tok.__sub__] *)
Definition tok_sub (a b : tok) : outcome pyval := py_sub (value a) (value b).

(** [Tok.__mul__] *)
Definition tok_mul (a b : tok) : outcome pyval := py_mul (value a) (value b).

(** [Tok.__div__].  Python 3 never calls it: [a / b] looks up
    [__truediv__]. *)
Definition tok_div (a b : tok) : outcome pyval := py_truediv (value a) (value b).

(** [tokt(token)]: [token.kind], AttributeError on a list. *)
Definition tokt (e : expr) : outcome token_kind :=
  match e with ETok t => Ret (kind t) | EList _ => Raise AttributeError end.

(** [istok(token)]: [isinstance(token, Tok)]. *)
Definition istok (e : expr) : bool := match e with ETok _ => true | EList _ => false end.

(** [construct_lambda(args, body)]: a function that ignores its argument
    and returns [Tok("LAMBDA", FUN)]. *)
Definition construct_lambda (args body : expr) : list expr -> tok :=
  fun _ => Tok (VStr "LAMBDA") FUN.

(** [call_lambda(token, args)]: on a FUN token, [token.value(args)]; a
    [value] is an int, a float or a str, none of them callable, so that
    raises TypeError.  Otherwise the function falls off its end: [None]. *)
Definition call_lambda (token : expr) (args : list expr) : outcome (option tok) :=
  if istok token then
    match tokt token with
    | Ret FUN => Raise TypeError
    | Ret _ => Ret None
    | Raise e => Raise e
    end
  else Ret None.

(** ** Lemmas *)

Lemma py_hash_valid v : hash_valid (py_hash v).
Proof. destruct v; [apply int_hash_valid|apply f_hash_valid|apply str_hash_valid]. Qed.

(** Values equal under [==] hash alike. *)
Lemma py_hash_eq a b : py_eqb a b = true -> py_hash a = py_hash b.
Proof.
  destruct a as [x|f|s], b as [y|g|u]; simpl; try discriminate.
  - by intros ->%Z.eqb_eq.
  - intros H. symmetry. by apply f_hash_Z.
  - apply f_hash_Z.
  - apply f_hash_eqb.
  - by intros ->%String.eqb_eq.
Qed.

Lemma kind_eqb_eq a b : kind_eqb a b = true -> a = b.
Proof. apply bool_decide_eq_true_1. Qed.

(** ** Theorems *)

(** C15 (safety): [Tok.__hash__] agrees with [Tok.__eq__] -- equal tokens
    have equal hashes, an int token and a float token of the same number
    included -- and always returns a valid hash (a signed 64-bit word other
    than [-1]).  So a dict keyed by tokens finds a key exactly when a key
    [==] to it is present: the association list under [tok_eqb] of
    [Tables]. *)
Theorem tok_hash_eq a b :
  (tok_eqb a b = true -> tok_hash a = tok_hash b) /\ hash_valid (tok_hash a).
Proof.
  split.
  - unfold tok_eqb, tok_hash. intros [Hv Hk]%andb_prop.
    by rewrite (py_hash_eq _ _ Hv), (kind_eqb_eq _ _ Hk).
  - apply tuple_hash_valid. constructor; [apply py_hash_valid|constructor; [apply str_hash_valid|constructor]].
Qed.
End TokenOps.

(** ** A hash for the exact-rational floats *)

(** The hash of the numerator of the reduced fraction: an integral float
    hashes like its int, as in CPython; str hashes by length. *)
Module QHash.
Definition q_hash (q : Q) : Z := int_hash (Qnum (Qred q)).

Lemma q_hash_eqb f g : Qeq_bool f g = true -> q_hash f = q_hash g.
Proof. intros H%Qeq_bool_iff. unfold q_hash. by rewrite (Qred_complete _ _ H). Qed.

Lemma qnum_qred_inject_Z z : Qnum (Qred (inject_Z z)) = z.
Proof.
  unfold Qred, inject_Z. pose proof (Z.ggcd_gcd z 1) as Hg.
  pose proof (Z.ggcd_correct_divisors z 1) as Hd.
  destruct (Z.ggcd z 1) as [g [a b]]. cbn in *. rewrite Z.gcd_1_r in Hg. subst g. lia.
Qed.

Lemma q_hash_Z f z : Qeq_bool f (inject_Z z) = true -> q_hash f = int_hash z.
Proof.
  intros H%Qeq_bool_iff. unfold q_hash. by rewrite (Qred_complete _ _ H), qnum_qred_inject_Z.
Qed.
End QHash.

#[export] Instance QHashInst : @PyHash QFloat := {
  f_hash := QHash.q_hash;
  str_hash s := int_hash (Z.of_nat (String.length s));
  f_hash_eqb := QHash.q_hash_eqb;
  f_hash_Z := QHash.q_hash_Z;
  f_hash_valid q := int_hash_valid _;
  str_hash_valid s := int_hash_valid _
}.

(** [hash((1, 2))] in CPython 3.11 on a 64-bit machine. *)
Example tuple_hash_cpython : tuple_hash [int_hash 1; int_hash 2] = -3550055125485641917.
Proof. vm_compute. reflexivity. Qed.

Lemma tok_hash_eq_witness :
  tok_hash (Tok (VInt 1) INT) = tok_hash (Tok (@VFlo QFloat (2 # 2)%Q) INT) /\
  hash_valid (tok_hash (Tok (VInt 1) INT)).
Proof.
  destruct (tok_hash_eq (Tok (VInt 1) INT) (Tok (@VFlo QFloat (2 # 2)%Q) INT)) as [H1 H2].
  split; [apply H1; vm_eq|exact H2].
Defined.
