(* ===== verification/TokenPy.v ===== *)
(** The module src/token.py: a second copy of the token layer of
    scheme.py -- the kind constants, class [Tok] with [__eq__],
    [__repr__] and [__str__], and [determine], [toklv], [tokt], [tokv],
    [istok].  scheme.py does not import it; it is a separate class with
    the same code.

    [TokenPy] translates that file on its own record type [tok]; Python's
    builtins it calls ([str.isnumeric], [str.split], [int()], [float()],
    [str()]) are the ones of [Token] and [PyValue], and the hashes those
    of [TokenOps]. *)

From Stdlib Require Import String Ascii ZArith List Bool.
From stdpp Require Import base tactics.
From S2P Require Import Prelude PyNum PyValue Token Parser Tables Eval Session TokenOps.
Import ListNotations.
Open Scope string_scope.

Module TokenPy.
Section TokenPy.
Context {PF : PyFloat} {PH : PyHash}.

(** [class Tok] of token.py, with [value] and [kind]. *)
Record tok := Tok { value : pyval; kind : token_kind }.

(** [Tok.__add__] *)
Definition tok_add (a b : tok) : outcome pyval := py_add (value a) (value b).

(** [Tok.__sub__] *)
Definition tok_sub (a b : tok) : outcome pyval := py_sub (value a) (value b).

(** [Tok.__mul__] *)
Definition tok_mul (a b : tok) : outcome pyval := py_mul (value a) (value b).

(** [Tok.__div__] *)
Definition tok_div (a b : tok) : outcome pyval := py_truediv (value a) (value b).

(** [Tok.__hash__] *)
Definition tok_hash (t : tok) : Z := tuple_hash [py_hash (value t); str_hash (kind_name (kind t))].

(** [Tok.__eq__] *)
Definition tok_eqb (a b : tok) : bool :=
  py_eqb (value a) (value b) && kind_eqb (kind a) (kind b).

(** [Tok.__repr__] *)
Definition tok_repr (t : tok) : string :=
  match kind t with
  | INT => "Tok(" ++ show_value (value t) ++ ", INT)"
  | FLO => "Tok(" ++ show_value (value t) ++ ", FLO)"
  | SYM => "Tok('" ++ show_value (value t) ++ "', SYM)"
  | FUN => "Tok('" ++ show_value (value t) ++ "', FUN)"
  end.

(** [Tok.__str__] *)
Definition tok_str (t : tok) : string :=
  match kind t with
  | INT => "i:" ++ show_value (value t)
  | FLO => "f:" ++ show_value (value t)
  | SYM => "s:" ++ show_value (value t)
  | FUN => "λ:" ++ show_value (value t)
  end.

(** [determine(string)]: digits give an INT token; two digit runs around
    one dot a FLO token; a word with a dot otherwise falls off the end of
    the function ([None]); a word without a dot a SYM token. *)
Definition determine (s : string) : option tok :=
  let l := list_ascii_of_string s in
  if isnumeric l then Some (Tok (VInt (decimal_value l)) INT)
  else if existsb (Ascii.eqb "."%char) l then
    match py_split "."%char l with
    | [a; b] =>
        if isnumeric a && isnumeric b
        then Some (Tok (VFlo (f_of_dec (decimal_value (a ++ b)) (length b))) FLO)
        else None
    | _ => None
    end
  else Some (Tok (VStr s) SYM).

(** [tokt(token)] *)
Definition tokt (t : tok) : token_kind := kind t.

(** [tokv(token)] *)
Definition tokv (t : tok) : outcome pyval :=
  match kind t with
  | INT => py_int (value t)
  | FLO => py_float (value t)
  | SYM => Ret (py_str (value t))
  | FUN => Ret (value t)
  end.

(** [toklv(tokens)]: [list(map(tokv, tokens))], the first exception
    raised by [tokv] aborting it. *)
Definition toklv (tokens : list tok) : outcome (list pyval) := omap tokv tokens.

(** [istok(x)] on a value that is a token of this module ([Some]) or any
    other object ([None]). *)
Definition istok (x : option tok) : bool := match x with Some _ => true | None => false end.
End TokenPy.
End TokenPy.
